(** * bw2analyzer.report: the serialized LCA report

    A shallow embedding of [src/bw2analyzer/report.py] (class
    [SerializedLCAReport]) and the properties of its Monte Carlo
    post-processing, of its identifier and of its upload path.

    Conventions of the embedding.
    - Python [int] is [Z].  Python [float] is IEEE binary64: the results
      of floating-point arithmetic are [spec_float]s computed with the
      operations of [SpecFloat] at precision 53 (rounding to nearest,
      ties to even, with infinities and NaN).  The Monte Carlo samples,
      which are only sorted, compared, counted and selected, are carried
      as the exact rational values of the finite doubles they are.
    - A Python call that may raise returns a [result].
    - Methods of the object run in a state-and-exception monad over the
      object, the global preferences [config.p] and the list of calls
      made to external collaborators.
    - numpy routines the method relies on ([sort], [unique], slicing,
      [min], [max], [linspace], [histogram], [repeat], [median]) are
      written out, the arithmetic ones in binary64; [np.mean], whose
      order of summation is numpy's business, scipy's kernel density
      fit, the Monte Carlo sampler, the LCA engine, the HTTP client and
      the JSON writer are parameters. *)

From Stdlib Require Import ZArith QArith Qround Qminmax Lia Permutation Sorted Ascii
  String SpecFloat.
From stdpp Require Import gmap strings list.

Local Open Scope Z_scope.

(** ** Python values, exceptions and results *)

Inductive exn : Type :=
| ValueError (msg : string)
| IndexError
| TypeError
| AttributeError (attr : string)
| KeyError (key : string)
| OverflowError (msg : string)
| ExternalError (origin : string).

Inductive result (A : Type) : Type :=
| Ok (a : A)
| Raise (e : exn).
Arguments Ok {A} a.
Arguments Raise {A} e.

(** Scalars as they occur in [config.p] and in the report metadata. *)
Inductive pyval : Type :=
| PNone
| PBool (b : bool)
| PInt (z : Z)
| PStr (s : string).

(** Opaque JSON payloads produced by the external collaborators. *)
Inductive json : Type :=
| JNull
| JNum (q : Q)
| JStr (s : string)
| JRaw (text : string).

(** Python truthiness, as used by [not x]. *)
Definition truthy (v : pyval) : bool :=
  match v with
  | PNone => false
  | PBool b => b
  | PInt z => negb (z =? 0)
  | PStr s => negb (String.eqb s "")
  end.

(** [d.get(k, default)] *)
Definition dict_get (d : gmap string pyval) (k : string) (default : pyval) : pyval :=
  match d !! k with
  | Some v => v
  | None => default
  end.

(** [int(x)] on the exact value [x] of a float: truncation toward
    zero. *)
Definition py_int (x : Q) : Z := Z.quot (Qnum x) (Zpos (Qden x)).

(** [a[i]] on a one-dimensional array: negative indices count from the
    end, anything out of range raises [IndexError]. *)
Definition py_getitem {A : Type} (a : list A) (i : Z) : result A :=
  let n := Z.of_nat (length a) in
  let j := if i <? 0 then i + n else i in
  if (j <? 0) || (n <=? j) then Raise IndexError
  else match a !! Z.to_nat j with
       | Some x => Ok x
       | None => Raise IndexError
       end.

(** Normalisation of one slice bound against a length. *)
Definition slice_bound (n i : Z) : Z :=
  if i <? 0 then Z.max (i + n) 0 else Z.min i n.

(** [a[lo:hi]] with step 1.  Note that [-0] is [0], so [a[0:-0]] is
    [a[0:0]]. *)
Definition py_slice {A : Type} (a : list A) (lo hi : Z) : list A :=
  let n := Z.of_nat (length a) in
  let start := slice_bound n lo in
  let stop := slice_bound n hi in
  take (Z.to_nat (stop - start)) (drop (Z.to_nat start) a).

(** [s[-1]] on a non-empty string. *)
Fixpoint last_char (s : string) : option ascii :=
  match s with
  | EmptyString => None
  | String c EmptyString => Some c
  | String _ r => last_char r
  end.

(** [os.path.join(d, name)] for a relative [name]. *)
Definition os_path_join (d name : string) : string :=
  match last_char d with
  | None => name
  | Some c => if Ascii.eqb c "/" then d +:+ name else d +:+ "/" +:+ name
  end.

(** ** Binary64 arithmetic *)

Definition float : Type := spec_float.

Definition prec : Z := 53.
Definition emax : Z := 1024.

Definition fadd : float -> float -> float := SFadd prec emax.
Definition fsub : float -> float -> float := SFsub prec emax.
Definition fmul : float -> float -> float := SFmul prec emax.
Definition fdiv : float -> float -> float := SFdiv prec emax.

Definition float_zero : float := S754_zero false.

(** [float(n)] for an integer [n]: the nearest double. *)
Definition float_of_Z (n : Z) : float := binary_normalize prec emax n 0 false.

(** The double a sample stands for (itself, for the value of a double),
    and the double written as the decimal literal [q]. *)
Definition double_of_Q (q : Q) : float :=
  let d := Zpos (Qden q) in
  let k := Z.log2 d in
  if d =? 2 ^ k
  then binary_normalize prec emax (Qnum q) (- k) false
  else fdiv (float_of_Z (Qnum q)) (float_of_Z d).

(** The value of a finite double. *)
Definition Q_of_float (x : float) : Q :=
  match x with
  | S754_finite s m e =>
      let v := if 0 <=? e then inject_Z (Zpos m * 2 ^ e)
               else Zpos m # Z.to_pos (2 ^ (- e)) in
      if s then Qopp v else v
  | _ => 0%Q
  end.

Definition is_nan (x : float) : bool :=
  match x with
  | S754_nan => true
  | _ => false
  end.

(** Neither an infinity nor NaN. *)
Definition finite (x : float) : bool :=
  match x with
  | S754_zero _ | S754_finite _ _ _ => true
  | _ => false
  end.

(** [x < y] and [x <= y] on doubles; both are false on NaN. *)
Definition float_lt (x y : float) : Prop := SFltb x y = true.
Definition float_le (x y : float) : Prop := SFleb x y = true.

(** The order numpy sorts and searches by: NaN counts as greatest. *)
Definition np_less (x y : float) : bool :=
  SFltb x y || (is_nan y && negb (is_nan x)).

(** [int(x)] on a float: truncation toward zero; an infinity and NaN are
    refused. *)
Definition py_int_float (x : float) : result Z :=
  match x with
  | S754_zero _ => Ok 0
  | S754_finite s m e =>
      let v := if 0 <=? e then Zpos m * 2 ^ e else Z.quot (Zpos m) (2 ^ (- e)) in
      Ok (if s then - v else v)
  | S754_infinity _ =>
      Raise (OverflowError "cannot convert float infinity to integer")
  | S754_nan => Raise (ValueError "cannot convert float NaN to integer")
  end.

(** ** numpy *)

Fixpoint sort_insert (x : Q) (l : list Q) : list Q :=
  match l with
  | [] => [x]
  | y :: r => if Qle_bool x y then x :: y :: r else y :: sort_insert x r
  end.

(** [a.sort()] *)
Fixpoint np_sort (l : list Q) : list Q :=
  match l with
  | [] => []
  | x :: r => sort_insert x (np_sort r)
  end.

(** The mask [ar[1:] != ar[:-1]] applied to [ar[1:]]. *)
Fixpoint keep_changes (prev : Q) (l : list Q) : list Q :=
  match l with
  | [] => []
  | x :: r => if Qeq_bool prev x then keep_changes x r else x :: keep_changes x r
  end.

(** [np.unique(a)]: sort, then keep the first element of every run. *)
Definition np_unique (l : list Q) : list Q :=
  match np_sort l with
  | [] => []
  | x :: r => x :: keep_changes x r
  end.

Definition empty_reduction : exn :=
  ValueError "zero-size array to reduction operation which has no identity".

(** [a.min()] and [a.max()] *)
Definition np_min (l : list Q) : result Q :=
  match l with
  | [] => Raise empty_reduction
  | x :: r => Ok (fold_left Qmin r x)
  end.

Definition np_max (l : list Q) : result Q :=
  match l with
  | [] => Raise empty_reduction
  | x :: r => Ok (fold_left Qmax r x)
  end.

(** The step of [np.linspace(start, stop, num)]. *)
Definition linspace_step (start stop : float) (num : nat) : float :=
  fdiv (fsub stop start) (float_of_Z (Z.of_nat (num - 1))).

(** [np.linspace(start, stop, num)]: [arange(0, num) * step + start]
    with the last entry overwritten by [stop]. *)
Definition np_linspace (start stop : float) (num : nat) : list float :=
  match num with
  | O => []
  | S O => [start]
  | S k =>
      let step := linspace_step start stop num in
      map (fun i => fadd (fmul (float_of_Z (Z.of_nat i)) step) start) (seq 0 k)
      ++ [stop]
  end.

(** [np.repeat(a, 2)] *)
Definition np_repeat2 {A : Type} (l : list A) : list A :=
  flat_map (fun x => [x; x]) l.

(** [np.diff] *)
Fixpoint np_diff (l : list float) : list float :=
  match l with
  | x :: (y :: _) as r => fsub y x :: np_diff r
  | _ => []
  end.

Fixpoint np_diff_Z (l : list Z) : list Z :=
  match l with
  | x :: (y :: _) as r => (y - x) :: np_diff_Z r
  | _ => []
  end.

(** [sa.searchsorted(v, 'left')] and [sa.searchsorted(v, 'right')] on a
    sorted array of samples: the first position whose entry is not below
    (respectively is above) [v]. *)
Fixpoint searchsorted_left (sa : list Q) (v : float) : Z :=
  match sa with
  | [] => 0
  | x :: r =>
      if np_less (double_of_Q x) v then 1 + searchsorted_left r v else 0
  end.

Fixpoint searchsorted_right (sa : list Q) (v : float) : Z :=
  match sa with
  | [] => 0
  | x :: r =>
      if np_less v (double_of_Q x) then 0 else 1 + searchsorted_right r v
  end.

Definition Zsum (l : list Z) : Z := fold_right Z.add 0 l.

(** The range [np.histogram] bins over when none is given:
    [[a.min(), a.max()]] as floats ([(0, 1)] for an empty array), moved
    apart by one half on each side when the two ends are equal. *)
Definition histogram_range (a : list Q) : float * float :=
  let range :=
    match np_min a, np_max a with
    | Ok mn, Ok mx => (double_of_Q mn, double_of_Q mx)
    | _, _ => (float_of_Z 0, float_of_Z 1)
    end in
  let mn := fadd (fst range) float_zero in
  let mx := fadd (snd range) float_zero in
  if SFeqb mn mx
  then (fsub mn (double_of_Q (1 # 2)), fadd mx (double_of_Q (1 # 2)))
  else (mn, mx).

(** [np.histogram(a, bins=bins, density=True)] for an integer number of
    bins: equal-width edges over the range, counts by [searchsorted] on
    the sorted data with the last bin closed on the right, and heights
    [n / db / n.sum()] in binary64, so that an empty bin of width zero
    has height NaN.  Returns [(heights, edges)]. *)
Definition np_histogram (a : list Q) (bins : Z) : result (list float * list float) :=
  if bins <? 1 then Raise (ValueError "`bins` should be a positive integer.")
  else
    let range := histogram_range a in
    let edges := np_linspace (fst range) (snd range) (S (Z.to_nat bins)) in
    let sa := np_sort a in
    let cum := map (searchsorted_left sa) (removelast edges)
               ++ [searchsorted_right sa (List.last edges float_zero)] in
    let n := np_diff_Z cum in
    let db := np_diff edges in
    let total := float_of_Z (Zsum n) in
    Ok (map (fun '(c, w) => fdiv (fdiv (float_of_Z c) w) total) (combine n db),
        edges).

(** [int(np.sqrt(n))]: the square root of a negative number is [nan],
    which [int] refuses. *)
Definition int_np_sqrt (n : Z) : result Z :=
  if n <? 0 then Raise (ValueError "cannot convert float NaN to integer")
  else Ok (Z.sqrt n).

(** ** The report object and its world *)

(** The functional unit: keys [(database, code)] with their amounts. *)
Definition activity_t : Type := list ((string * string) * Q).
(** The impact assessment method: a tuple of strings. *)
Definition method_t : Type := list string.

Record statistics_t : Type := mkStatistics {
  median : float;
  mean : float;
  interval : list Q
}.

(** The value under ["monte carlo"]. *)
Record mc_summary : Type := mkSummary {
  smoothed : list (float * float);
  histogram : list (float * float);
  statistics : statistics_t
}.

(** What lines 28-55 of [calculate] obtain from the LCA engine and the
    contribution analysis. *)
Record lca_sections_t : Type := mkSections {
  sec_activity : json;
  sec_method : json;
  sec_score : json;
  sec_contribution : json
}.

(** [self.report] *)
Record Report : Type := mkReport {
  r_activity : json;
  r_method : json;
  r_score : json;
  r_contribution : json;
  r_force_directed : json;
  r_monte_carlo : option mc_summary;
  r_metadata : gmap string pyval
}.

Record SerializedLCAReport : Type := mkSelf {
  activity : activity_t;
  method : method_t;
  iterations : Z;
  cpus : option Z;
  outliers : float;
  uuid : string;
  report : option Report
}.

(** The class attribute. *)
Definition version : Z := 1.

(** Calls that leave the module. *)
Inductive event : Type :=
| CallLCA (a : activity_t) (m : method_t)
| CallGraphTraversal (a : activity_t) (m : method_t)
| CallMonteCarlo (a : activity_t) (m : method_t) (n : Z) (workers : option Z)
| CallKde (dataset : list Q)
| CallRequestDir (name : string)
| CallDump (doc : Report) (filepath : string)
| CallPost (url : string) (body : string).

Record state : Type := mkState {
  self : SerializedLCAReport;
  config_p : gmap string pyval;
  calls : list event
}.

(** State that survives an exception, as in Python. *)
Definition M (A : Type) : Type := state -> result A * state.

Definition ret {A : Type} (a : A) : M A := fun st => (Ok a, st).
Definition raise {A : Type} (e : exn) : M A := fun st => (Raise e, st).
Definition lift {A : Type} (r : result A) : M A := fun st => (r, st).

Definition bind {A B : Type} (m : M A) (f : A -> M B) : M B :=
  fun st =>
    match m st with
    | (Ok a, st') => f a st'
    | (Raise e, st') => (Raise e, st')
    end.

Notation "'let*' x ':=' c1 'in' c2" := (bind c1 (fun x => c2))
  (at level 10, x pattern, c1 at level 100, c2 at level 200).

Definition get_self : M SerializedLCAReport := fun st => (Ok (self st), st).
Definition get_config : M (gmap string pyval) := fun st => (Ok (config_p st), st).

(** A call to a collaborator: it is recorded, and its outcome is the
    collaborator's. *)
Definition log (ev : event) (st : state) : state :=
  mkState (self st) (config_p st) (calls st ++ [ev]).

Definition external {A : Type} (ev : event) (r : result A) : M A :=
  fun st => (r, log ev st).

(** [self.report = doc] *)
Definition store_report (doc : Report) (st : state) : state :=
  let s := self st in
  mkState (mkSelf (activity s) (method s) (iterations s) (cpus s)
                  (outliers s) (uuid s) (Some doc))
          (config_p st) (calls st).

Definition set_report (doc : Report) : M unit :=
  fun st => (Ok tt, store_report doc st).

(** Reading [self.report] before [calculate] has set it. *)
Definition getattr_report (s : SerializedLCAReport) : result Report :=
  match report s with
  | Some doc => Ok doc
  | None => Raise (AttributeError "report")
  end.

(** [__init__]; [uuid4_hex] is what [uuid.uuid4().hex] answered. *)
Definition init (a : activity_t) (m : method_t) (n : Z) (workers : option Z)
    (out : float) (uuid4_hex : string) : SerializedLCAReport :=
  mkSelf a m n workers out uuid4_hex None.

Definition default_iterations : Z := 10000.
Definition default_cpus : option Z := None.
(** The literal [0.025]. *)
Definition default_outliers : float := double_of_Q (25 # 1000).

(** Pieces of [get_monte_carlo] that the properties below talk about. *)

(** line 81: [int(self.outliers * mc_data.shape[0])], the binary64
    product truncated toward zero. *)
Definition mc_offset (out : float) (mc_data : list Q) : result Z :=
  py_int_float (fmul out (float_of_Z (Z.of_nat (length mc_data)))).

(** line 84: [mc_data[offset:-offset]] *)
Definition filter_outliers (offset : Z) (mc_data : list Q) : list Q :=
  py_slice mc_data offset (- offset).

(** lines 82 and 83, on the decimal fractions *)
Definition lower_index (n : Z) : Z := py_int ((15 # 1000) * inject_Z n).
Definition upper_index (n : Z) : Z := py_int ((985 # 1000) * inject_Z n).

(** [int(c * n)] as binary64 computes it, and a check of the two
    indices above against it for [count] counts from [n] on. *)
Definition index_float (c : float) (n : Z) : result Z :=
  py_int_float (fmul c (float_of_Z n)).

Definition indices_agree (lo hi : float) (n : Z) : bool :=
  match index_float lo n, index_float hi n with
  | Ok l, Ok u => (l =? lower_index n) && (u =? upper_index n)
  | _, _ => false
  end.

Fixpoint agree_from (lo hi : float) (n : Z) (count : nat) : bool :=
  match count with
  | O => true
  | S c => indices_agree lo hi n && agree_from lo hi (n + 1) c
  end.

(** lines 85-88 *)
Definition num_bins (n : Z) : result Z :=
  match int_np_sqrt n with
  | Ok root => Ok (Z.max 100 (Z.min 20 root))
  | Raise e => Raise e
  end.

(** lines 95-100 and 103 *)
Definition step_polyline (hist_ys hist_xs : list float) : list (float * float) :=
  let hist_xs := np_repeat2 hist_xs in
  let hist_ys := [float_zero] ++ np_repeat2 hist_ys ++ [float_zero] in
  combine hist_xs hist_ys.

(** Stand-ins for the collaborators, used to run the model on concrete
    inputs. *)
Definition sampler_of (raw : list Q) :
    activity_t -> method_t -> Z -> option Z -> result (list Q) :=
  fun _ _ _ _ => Ok raw.

(** A fit that, like scipy's, refuses fewer than two points, and answers
    a flat curve otherwise. *)
Definition flat_kde (dataset : list Q) : result (float -> float) :=
  if (length dataset <=? 1)%nat
  then Raise (ValueError "`dataset` input should have multiple elements.")
  else Ok (fun _ => float_of_Z 1).

(** A mean that adds from left to right and divides by the count. *)
Definition naive_mean (a : list Q) : float :=
  fdiv (fold_left (fun acc x => fadd acc (double_of_Q x)) a float_zero)
       (float_of_Z (Z.of_nat (length a))).

Definition post_answering (status : Z) : string -> string -> result Z :=
  fun _ _ => Ok status.

Definition failing_sampler :
    activity_t -> method_t -> Z -> option Z -> result (list Q) :=
  fun _ _ _ _ => Raise (ExternalError "ParallelMonteCarlo").

Definition failing_lca : activity_t -> method_t -> result lca_sections_t :=
  fun _ _ => Raise (ExternalError "LCA").

Definition plain_lca : activity_t -> method_t -> result lca_sections_t :=
  fun _ _ => Ok (mkSections JNull JNull (JNum 1) JNull).

Definition plain_graph : activity_t -> method_t -> result json :=
  fun _ _ => Ok JNull.

Definition home_dir : string -> result string :=
  fun name => Ok ("/home/user/brightway2/" +:+ name).

Definition quiet_dump : Report -> string -> result unit :=
  fun _ _ => Ok tt.

Definition plain_dumps : Report -> string :=
  fun _ => "{}".

Section Model.

(** *** External collaborators *)

(** [ParallelMonteCarlo(activity, method, iterations, cpus).calculate()] *)
Variable ParallelMonteCarlo :
  activity_t -> method_t -> Z -> option Z -> result (list Q).
(** [gaussian_kde(dataset)]; the answer is [kde.evaluate] pointwise. *)
Variable gaussian_kde : list Q -> result (float -> float).
(** [np.mean] of a one-dimensional array. *)
Variable np_mean : list Q -> float.
(** The LCA engine and the contribution analysis of [calculate]. *)
Variable lca_sections : activity_t -> method_t -> result lca_sections_t.
(** Graph traversal, simplification and reformatting. *)
Variable graph_traversal : activity_t -> method_t -> result json.
(** [config.request_dir] *)
Variable request_dir : string -> result string.
(** [JsonWrapper.dump] and [JsonWrapper.dumps] *)
Variable JsonWrapper_dump : Report -> string -> result unit.
Variable JsonWrapper_dumps : Report -> string.
(** [requests.post(...).status_code] *)
Variable requests_post : string -> string -> result Z.

(** *** Methods *)

(** [np.median]: the mean of the middle entry of the sorted array, or
    of the two middle entries when their number is even. *)
Definition np_median (a : list Q) : float :=
  let sorted := np_sort a in
  let n := Z.of_nat (length sorted) in
  let index := n / 2 in
  if n mod 2 =? 1
  then np_mean (py_slice sorted index (index + 1))
  else np_mean (py_slice sorted (index - 1) (index + 1)).

Definition get_monte_carlo : M (option mc_summary) :=
  let* s := get_self in
  if iterations s =? 0 then ret None
  else
    let* raw := external
      (CallMonteCarlo (activity s) (method s) (iterations s) (cpus s))
      (ParallelMonteCarlo (activity s) (method s) (iterations s) (cpus s)) in
    let mc_data := np_sort raw in
    if (length (np_unique mc_data) =? 1)%nat then ret None
    else
      let* offset := lift (mc_offset (outliers s) mc_data) in
      let* lower := lift (py_getitem mc_data (lower_index (iterations s))) in
      let* upper := lift (py_getitem mc_data (upper_index (iterations s))) in
      let mc_data := filter_outliers offset mc_data in
      let* bins := lift (num_bins (iterations s)) in
      let* kde := external (CallKde mc_data) (gaussian_kde mc_data) in
      let* lo := lift (np_min mc_data) in
      let* hi := lift (np_max mc_data) in
      let kde_xs := np_linspace (double_of_Q lo) (double_of_Q hi) 500 in
      let kde_ys := map kde kde_xs in
      let* hist := lift (np_histogram mc_data bins) in
      ret (Some (mkSummary
                   (combine kde_xs kde_ys)
                   (step_polyline (fst hist) (snd hist))
                   (mkStatistics (np_median mc_data) (np_mean mc_data)
                                 [lower; upper]))).

Definition get_force_directed : M json :=
  let* s := get_self in
  external (CallGraphTraversal (activity s) (method s))
           (graph_traversal (activity s) (method s)).

Definition calculate : M unit :=
  let* s := get_self in
  let* sec := external (CallLCA (activity s) (method s))
                       (lca_sections (activity s) (method s)) in
  let* fd := get_force_directed in
  let* mc := get_monte_carlo in
  set_report
    (mkReport (sec_activity sec) (sec_method sec) (sec_score sec)
              (sec_contribution sec) fd mc
              (<["type" := PStr "Brightway2 serialized LCA report"]>
                 (<["version" := PInt version]>
                    (<["uuid" := PStr (uuid s)]> ∅)))).

Definition report_filename (s : SerializedLCAReport) : string :=
  "report." +:+ uuid s +:+ ".json".

Definition write : M unit :=
  let* s := get_self in
  let* dirpath := external (CallRequestDir "reports") (request_dir "reports") in
  let filepath := os_path_join dirpath (report_filename s) in
  let* doc := lift (getattr_report s) in
  external (CallDump doc filepath) (JsonWrapper_dump doc filepath).

(** lines 134-136: the configured address, with a final slash. *)
Definition server_url (p : gmap string pyval) : result string :=
  match p !! "report_server_url" with
  | Some (PStr url) =>
      match last_char url with
      | Some c => Ok (if Ascii.eqb c "/" then url else url +:+ "/")
      | None => Raise IndexError
      end
  | Some _ => Raise TypeError
  | None => Raise (KeyError "report_server_url")
  end.

Definition uploads_allowed (p : gmap string pyval) : bool :=
  truthy (dict_get p "upload_reports" (PBool false))
  && truthy (dict_get p "report_server_url" PNone).

(** [self.report["metadata"]["online"] = report_url] *)
Definition set_online (doc : Report) (report_url : string) : Report :=
  mkReport (r_activity doc) (r_method doc) (r_score doc) (r_contribution doc)
           (r_force_directed doc) (r_monte_carlo doc)
           (<["online" := PStr report_url]> (r_metadata doc)).

Definition upload : M pyval :=
  let* s := get_self in
  let* p := get_config in
  if negb (uploads_allowed p)
  then raise (ValueError "Report uploading not allowed")
  else
    let* url := lift (server_url p) in
    let* doc := lift (getattr_report s) in
    let* status := external
      (CallPost (url +:+ "upload") (JsonWrapper_dumps doc))
      (requests_post (url +:+ "upload") (JsonWrapper_dumps doc)) in
    if status =? 200 then
      let report_url := url +:+ "report/" +:+ uuid s in
      let* _ := set_report (set_online doc report_url) in
      ret (PStr report_url)
    else ret (PBool false).

(** Any use of the object after construction. *)
Inductive method_call : Type :=
| Calculate
| GetMonteCarlo
| GetForceDirected
| Write
| Upload.

Definition run_call (c : method_call) (st : state) : state :=
  match c with
  | Calculate => snd (calculate st)
  | GetMonteCarlo => snd (get_monte_carlo st)
  | GetForceDirected => snd (get_force_directed st)
  | Write => snd (write st)
  | Upload => snd (upload st)
  end.

Definition run_calls (cs : list method_call) (st : state) : state :=
  fold_left (fun acc c => run_call c acc) cs st.


(** *** Vocabulary of the properties *)

(** Some sample differs from another one. *)
Definition nondegenerate (raw : list Q) : Prop :=
  exists x y, x ∈ raw /\ y ∈ raw /\ ~ (x == y)%Q.

(** There is a sample and all samples are equal. *)
Definition all_identical (raw : list Q) : Prop :=
  raw <> [] /\ forall x y, x ∈ raw -> y ∈ raw -> (x == y)%Q.

(** The sampler's answer for this report. *)
Definition sampled (st : state) (raw : list Q) : Prop :=
  ParallelMonteCarlo (activity (self st)) (method (self st))
                     (iterations (self st)) (cpus (self st)) = Ok raw.

Definition sampler_call (st : state) : event :=
  CallMonteCarlo (activity (self st)) (method (self st))
                 (iterations (self st)) (cpus (self st)).

(** The same report with another trimming fraction. *)
Definition with_outliers (out : float) (st : state) : state :=
  let s := self st in
  mkState (mkSelf (activity s) (method s) (iterations s) (cpus s) out
                  (uuid s) (report s))
          (config_p st) (calls st).

(** Everything a run that answers a summary went through. *)
Inductive summary_run (st st' : state) (s : mc_summary) : Prop :=
| SummaryRun (raw : list Q) (offset : Z) (lower upper : Q) (bins : Z)
    (kde : float -> float) (lo hi : Q) (hist : list float * list float)
    (run_requested : iterations (self st) <> 0)
    (run_sampled : sampled st raw)
    (run_varied : length (np_unique (np_sort raw)) <> 1%nat)
    (run_offset : mc_offset (outliers (self st)) (np_sort raw) = Ok offset)
    (run_lower :
       py_getitem (np_sort raw) (lower_index (iterations (self st))) = Ok lower)
    (run_upper :
       py_getitem (np_sort raw) (upper_index (iterations (self st))) = Ok upper)
    (run_bins : num_bins (iterations (self st)) = Ok bins)
    (run_kde : gaussian_kde (filter_outliers offset (np_sort raw)) = Ok kde)
    (run_lo : np_min (filter_outliers offset (np_sort raw)) = Ok lo)
    (run_hi : np_max (filter_outliers offset (np_sort raw)) = Ok hi)
    (run_hist : np_histogram (filter_outliers offset (np_sort raw)) bins = Ok hist)
    (run_state :
       st' = log (CallKde (filter_outliers offset (np_sort raw)))
                 (log (sampler_call st) st))
    (run_summary :
       s = mkSummary
             (combine (np_linspace (double_of_Q lo) (double_of_Q hi) 500)
                      (map kde (np_linspace (double_of_Q lo) (double_of_Q hi) 500)))
             (step_polyline (fst hist) (snd hist))
             (mkStatistics
                (np_median (filter_outliers offset (np_sort raw)))
                (np_mean (filter_outliers offset (np_sort raw)))
                [lower; upper])).

(** The size of the trimmed sample set as the specification has it, read
    off the data handed to the density estimate:
    [N - 2 * floor(outliers * N)], and below [N] for a positive
    fraction. *)
Definition trimmed_size (st : state) (raw : list Q) : Prop :=
  let N := Z.of_nat (length raw) in
  exists trimmed,
    calls (snd (get_monte_carlo st)) =
      calls st ++ [sampler_call st; CallKde trimmed] /\
    Z.of_nat (length trimmed) =
      N - 2 * Qfloor (Q_of_float (outliers (self st)) * inject_Z N) /\
    ((0 < Q_of_float (outliers (self st)))%Q -> Z.of_nat (length trimmed) < N).

(** The size of the trimmed sample set for the offset [k] the code has
    computed: [N - 2 * k], below [N]. *)
Definition trimmed_by (k : Z) (st : state) (raw : list Q) : Prop :=
  let N := Z.of_nat (length raw) in
  exists trimmed,
    calls (snd (get_monte_carlo st)) =
      calls st ++ [sampler_call st; CallKde trimmed] /\
    Z.of_nat (length trimmed) = N - 2 * k /\
    Z.of_nat (length trimmed) < N.

(** The smoothed density: 500 points; the abscissae are those of
    [np.linspace] from [lo] to [hi], the last one [hi] itself and the
    first one equal to [lo] when the step is finite; the ordinates are
    the fitted density at the abscissae. *)
Definition smoothed_shape (s : mc_summary) (kde : float -> float)
    (lo hi : Q) : Prop :=
  length (smoothed s) = 500%nat /\
  map fst (smoothed s) = np_linspace (double_of_Q lo) (double_of_Q hi) 500 /\
  (finite (double_of_Q lo) = true ->
   finite (linspace_step (double_of_Q lo) (double_of_Q hi) 500) = true ->
   exists x, head (map fst (smoothed s)) = Some x /\
             SFeqb x (double_of_Q lo) = true) /\
  last (map fst (smoothed s)) = Some (double_of_Q hi) /\
  map snd (smoothed s) = map kde (map fst (smoothed s)).

(** Abscissae in strictly ascending order. *)
Definition strictly_ascending (xs : list float) : Prop := Sorted float_lt xs.

(** No ordinate below zero. *)
Definition nonnegative (ys : list float) : Prop := Forall (float_le float_zero) ys.

(** Concrete runs. *)
Definition ten_samples : list Q := map inject_Z [3; 1; 2; 5; 4; 7; 6; 9; 8; 10].
Definition flat_middle : list Q := [0%Q; 1 # 8; 1 # 8; 1 # 8; 1 # 4].
(** The three doubles from 1 on, between 0.5 and 2. *)
Definition close_samples : list Q :=
  [1 # 2; 1%Q; 4503599627370497 # 4503599627370496;
   4503599627370498 # 4503599627370496; 2%Q].

Definition fresh_state (n : Z) (out : float) (p : gmap string pyval) : state :=
  mkState (init [] [] n default_cpus out "0123456789abcdef0123456789abcdef") p [].

(** The documents written to disk so far, with their paths. *)
Fixpoint dumps_of (evs : list event) : list (Report * string) :=
  match evs with
  | [] => []
  | CallDump doc filepath :: r => (doc, filepath) :: dumps_of r
  | _ :: r => dumps_of r
  end.

(** A document that carries the identifier [u]: its metadata name [u]
    and schema version 1, and an online address, if any, ends in [u]. *)
Definition report_identified (u : string) (doc : Report) : Prop :=
  r_metadata doc !! "uuid" = Some (PStr u) /\
  r_metadata doc !! "version" = Some (PInt 1) /\
  forall v, r_metadata doc !! "online" = Some v ->
            exists base, v = PStr (base +:+ "report/" +:+ u).

(** A state in which the identifier is [u] everywhere: on the object, in
    its document, and in every file written. *)
Definition identified (u : string) (st : state) : Prop :=
  uuid (self st) = u /\
  (forall doc, report (self st) = Some doc -> report_identified u doc) /\
  (forall doc filepath, (doc, filepath) ∈ dumps_of (calls st) ->
     report_identified u doc /\
     exists dirpath, filepath = os_path_join dirpath ("report." +:+ u +:+ ".json")).

(** The upload got as far as the HTTP request, which answered [status]. *)
Definition posted (st : state) (url : string) (doc : Report) (status : Z) : Prop :=
  uploads_allowed (config_p st) = true /\
  server_url (config_p st) = Ok url /\
  report (self st) = Some doc /\
  requests_post (url +:+ "upload") (JsonWrapper_dumps doc) = Ok status.

Definition post_call (url : string) (doc : Report) : event :=
  CallPost (url +:+ "upload") (JsonWrapper_dumps doc).

(** Concrete documents and preferences. *)
Definition sample_report (u : string) : Report :=
  mkReport JNull JNull (JNum 1) JNull JNull None
           (<["type" := PStr "Brightway2 serialized LCA report"]>
              (<["version" := PInt version]> (<["uuid" := PStr u]> ∅))).

Definition upload_config : gmap string pyval :=
  <["upload_reports" := PBool true]>
    (<["report_server_url" := PStr "http://reports.brightwaylca.org"]> ∅).

Definition calculated_state (u : string) (p : gmap string pyval) : state :=
  mkState (mkSelf [] [] default_iterations default_cpus default_outliers u
                  (Some (sample_report u)))
          p [].

(** The summary a run answered, if it answered one. *)
Definition summary_of (run : result (option mc_summary) * state) : mc_summary :=
  match fst run with
  | Ok (Some s) => s
  | _ => mkSummary [] [] (mkStatistics float_zero float_zero [])
  end.

Definition ten_state : state := fresh_state 10 (double_of_Q (2 # 10)) ∅.
Definition flat_state : state := fresh_state 5 (double_of_Q (2 # 10)) ∅.

(** A report that is calculated, written, uploaded with success and
    written again. *)
Definition office_uuid : string := "0123456789abcdef0123456789abcdef".

Definition office_calls : list method_call := [Calculate; Write; Upload; Write].

Definition office_start : state :=
  mkState (init [] [] 0 default_cpus default_outliers office_uuid)
          upload_config [].

(** * Properties *)

(** ** Sorting and the degeneracy test *)

Lemma sort_insert_perm (x : Q) (l : list Q) :
  Permutation (sort_insert x l) (x :: l).
Proof.
  induction l as [|y r IH]; simpl.
  - reflexivity.
  - destruct (Qle_bool x y).
    + reflexivity.
    + rewrite IH. apply perm_swap.
Qed.

Lemma np_sort_perm (l : list Q) : Permutation (np_sort l) l.
Proof.
  induction l as [|x r IH]; simpl.
  - reflexivity.
  - rewrite sort_insert_perm. now constructor.
Qed.

Lemma np_sort_length (l : list Q) : length (np_sort l) = length l.
Proof. apply Permutation_length, np_sort_perm. Qed.

Lemma np_sort_elem_of (l : list Q) (x : Q) : x ∈ np_sort l <-> x ∈ l.
Proof. now rewrite (np_sort_perm l). Qed.

Lemma keep_changes_nil (prev : Q) (l : list Q) :
  keep_changes prev l = [] <-> forall x, x ∈ l -> (prev == x)%Q.
Proof.
  revert prev. induction l as [|y r IH]; intros prev; simpl.
  - split; [intros _ x Hx; inversion Hx | reflexivity].
  - destruct (Qeq_bool prev y) eqn:E.
    + apply Qeq_bool_iff in E. rewrite IH. split.
      * intros H x Hx. apply elem_of_cons in Hx as [->|Hx]; [exact E|].
        rewrite E. now apply H.
      * intros H x Hx. rewrite <- E. apply H. now right.
    + split; [discriminate|].
      intros H. exfalso.
      assert (prev == y)%Q as Hy by (apply H; left).
      apply Qeq_bool_iff in Hy. congruence.
Qed.

Lemma np_unique_one (l : list Q) :
  length (np_unique l) = 1%nat <-> all_identical l.
Proof.
  unfold np_unique, all_identical.
  pose proof (np_sort_elem_of l) as Hin.
  pose proof (np_sort_length l) as Hlen.
  destruct (np_sort l) as [|x r]; simpl in *.
  - destruct l; [|discriminate]. split; [discriminate | intros [H _]; congruence].
  - split.
    + intros H. assert (keep_changes x r = []) as Hr
        by (destruct (keep_changes x r); [reflexivity | discriminate]).
      rewrite keep_changes_nil in Hr.
      assert (forall z, z ∈ l -> (x == z)%Q) as Hall.
      { intros z Hz. apply Hin in Hz. apply elem_of_cons in Hz as [->|Hz];
          [reflexivity | now apply Hr]. }
      split; [destruct l; [discriminate | congruence]|].
      intros a b Ha Hb. rewrite <- (Hall a Ha). now apply Hall.
    + intros [_ H].
      assert (keep_changes x r = []) as ->; [|reflexivity].
      apply keep_changes_nil. intros z Hz.
      apply H; apply Hin; [left | now right].
Qed.

Lemma nondegenerate_not_one (l : list Q) :
  nondegenerate l -> length (np_unique l) <> 1%nat.
Proof.
  intros (x & y & Hx & Hy & Hne) H. apply np_unique_one in H as [_ H].
  apply Hne. now apply H.
Qed.

Lemma nondegenerate_sort (l : list Q) :
  nondegenerate l -> nondegenerate (np_sort l).
Proof.
  intros (x & y & Hx & Hy & Hne). exists x, y.
  now rewrite !np_sort_elem_of.
Qed.

Lemma all_identical_sort (l : list Q) :
  all_identical l -> all_identical (np_sort l).
Proof.
  intros [Hnil H]. split.
  - intros E. apply Hnil. pose proof (np_sort_length l) as Hl.
    rewrite E in Hl. destruct l; [reflexivity | discriminate].
  - intros x y. rewrite !np_sort_elem_of. apply H.
Qed.

(** ** Truncation, indexing and slicing *)

Lemma py_int_floor (x : Q) : (0 <= x)%Q -> py_int x = Qfloor x.
Proof.
  intros H. unfold py_int. destruct x as [a b]; simpl.
  unfold Qle in H; simpl in H.
  apply Z.quot_div_nonneg; lia.
Qed.

Lemma py_getitem_lookup {A : Type} (a : list A) (i : Z) (x : A) :
  0 <= i -> py_getitem a i = Ok x -> a !! Z.to_nat i = Some x.
Proof.
  intros Hi H. unfold py_getitem in H. cbv zeta in H.
  assert ((i <? 0) = false) as E by lia. rewrite !E in H. simpl in H.
  destruct (Z.of_nat (length a) <=? i); [discriminate|].
  destruct (a !! Z.to_nat i); congruence.
Qed.

Lemma py_getitem_in_range {A : Type} (a : list A) (i : Z) :
  0 <= i < Z.of_nat (length a) -> exists x, py_getitem a i = Ok x.
Proof.
  intros Hi. unfold py_getitem. cbv zeta.
  assert ((i <? 0) = false) as E by lia. rewrite !E.
  assert ((Z.of_nat (length a) <=? i) = false) as E2 by lia. rewrite E2. simpl.
  destruct (lookup_lt_is_Some_2 a (Z.to_nat i)) as [x Hx]; [lia|].
  rewrite Hx. now exists x.
Qed.

Lemma py_slice_length {A : Type} (a : list A) (lo hi : Z) :
  Z.of_nat (length (py_slice a lo hi)) =
  Z.max 0 (slice_bound (Z.of_nat (length a)) hi
           - slice_bound (Z.of_nat (length a)) lo).
Proof.
  unfold py_slice. rewrite length_take, length_drop.
  unfold slice_bound.
  destruct (hi <? 0) eqn:E1; destruct (lo <? 0) eqn:E2; lia.
Qed.

(** Cutting [k >= 1] entries from each end removes [2 * k] of them. *)
Lemma py_slice_symmetric {A : Type} (a : list A) (k : Z) :
  1 <= k -> 2 * k <= Z.of_nat (length a) ->
  Z.of_nat (length (py_slice a k (- k))) = Z.of_nat (length a) - 2 * k.
Proof.
  intros Hk Hn. rewrite py_slice_length. unfold slice_bound.
  destruct (- k <? 0) eqn:E1; destruct (k <? 0) eqn:E2; lia.
Qed.

(** With [k = 0] the upper bound [-0] is the start of the array. *)
Lemma py_slice_zero {A : Type} (a : list A) : py_slice a 0 (- 0) = [].
Proof.
  unfold py_slice, slice_bound. change (- 0) with 0.
  change (0 <? 0) with false. cbv iota zeta.
  replace (Z.min 0 (Z.of_nat (length a))) with 0 by lia. reflexivity.
Qed.

(** ** Binary64 facts *)

Lemma float_of_Z_zero : float_of_Z 0 = S754_zero false.
Proof. reflexivity. Qed.

(** Zero times a finite number is a zero. *)
Lemma fmul_zero_finite (x : float) :
  finite x = true -> exists s, fmul (S754_zero false) x = S754_zero s.
Proof.
  destruct x as [s|s| |s m e]; try discriminate; intros _; eexists; reflexivity.
Qed.

(** Zero times an infinity or NaN is NaN. *)
Lemma fmul_not_finite_zero (x : float) :
  finite x = false -> fmul x (S754_zero false) = S754_nan.
Proof. destruct x as [s|s| |s m e]; try discriminate; reflexivity. Qed.

Lemma fmul_finite_zero (x : float) :
  finite x = true -> exists s, fmul x (S754_zero false) = S754_zero s.
Proof.
  destruct x as [s|s| |s m e]; try discriminate; intros _; eexists; reflexivity.
Qed.

Lemma SFeqb_refl_finite (x : float) : finite x = true -> SFeqb x x = true.
Proof.
  destruct x as [s|s| |s m e]; try discriminate; intros _;
    unfold SFeqb, SFcompare; [reflexivity|].
  destruct s; rewrite Z.compare_refl, Pos.compare_cont_refl; reflexivity.
Qed.

(** Adding a zero to a finite number gives a number equal to it. *)
Lemma fadd_zero_finite (s : bool) (x : float) :
  finite x = true -> SFeqb (fadd (S754_zero s) x) x = true.
Proof.
  destruct x as [sx|sx| |sx m e]; try discriminate; intros _.
  - destruct s, sx; reflexivity.
  - apply (SFeqb_refl_finite (S754_finite sx m e)). reflexivity.
Qed.

Lemma nonnegative_forallb (ys : list float) :
  nonnegative ys -> forallb (SFleb float_zero) ys = true.
Proof.
  induction 1 as [|y ys Hy _ IH]; [reflexivity|].
  cbn [forallb]. now rewrite Hy, IH.
Qed.

(** [int(outliers * 0)]: a zero for a finite fraction; NaN, which [int]
    refuses, for an infinite one or NaN. *)
Lemma mc_offset_nil (out : float) :
  mc_offset out [] =
  if finite out then Ok 0
  else Raise (ValueError "cannot convert float NaN to integer").
Proof.
  unfold mc_offset. change (Z.of_nat (length (@nil Q))) with 0.
  rewrite float_of_Z_zero.
  destruct (finite out) eqn:E.
  - destruct (fmul_finite_zero out E) as [s ->]. reflexivity.
  - now rewrite (fmul_not_finite_zero out E).
Qed.

(** ** The shape of a run of [get_monte_carlo] *)

Lemma get_monte_carlo_summary (st st' : state) (s : mc_summary) :
  get_monte_carlo st = (Ok (Some s), st') -> summary_run st st' s.
Proof.
  unfold get_monte_carlo, bind, get_self, external, lift, ret.
  destruct (iterations (self st) =? 0) eqn:E0; [discriminate|].
  unfold log; cbn [self config_p calls].
  destruct (ParallelMonteCarlo _ _ _ _) as [raw|] eqn:Eraw; [|discriminate].
  destruct (length (np_unique (np_sort raw)) =? 1)%nat eqn:Eu; [discriminate|].
  destruct (mc_offset _ _) as [offset|] eqn:Eo; [|discriminate].
  destruct (py_getitem _ (lower_index _)) as [lower|] eqn:El; [|discriminate].
  destruct (py_getitem _ (upper_index _)) as [upper|] eqn:Eh; [|discriminate].
  destruct (num_bins _) as [bins|] eqn:Eb; [|discriminate].
  unfold log; cbn [self config_p calls].
  destruct (gaussian_kde _) as [kde|] eqn:Ek; [|discriminate].
  destruct (np_min _) as [lo|] eqn:Elo; [|discriminate].
  destruct (np_max _) as [hi|] eqn:Ehi; [|discriminate].
  destruct (np_histogram _ _) as [hist|] eqn:Ehist; [|discriminate].
  match goal with
  | |- (Ok (Some ?t), ?u) = _ -> _ => remember t as T eqn:ET; remember u as U eqn:EU
  end.
  intros H. injection H as Hs Hst. subst T U s st'.
  apply (SummaryRun st _ _ raw offset lower upper bins kde lo hi hist);
    try assumption; try reflexivity.
  - lia.
  - apply Nat.eqb_neq, Eu.
Qed.

(** ** Indices, offset and bin count *)

Lemma lower_index_floor (n : Z) :
  0 <= n -> lower_index n = Qfloor ((15 # 1000) * inject_Z n).
Proof.
  intros Hn. apply py_int_floor.
  apply Qmult_le_0_compat; [discriminate|].
  change 0%Q with (inject_Z 0). now rewrite <- Zle_Qle.
Qed.

Lemma upper_index_floor (n : Z) :
  0 <= n -> upper_index n = Qfloor ((985 # 1000) * inject_Z n).
Proof.
  intros Hn. apply py_int_floor.
  apply Qmult_le_0_compat; [discriminate|].
  change 0%Q with (inject_Z 0). now rewrite <- Zle_Qle.
Qed.

Lemma lower_index_range (n : Z) : 1 <= n -> 0 <= lower_index n < n.
Proof.
  intros Hn. unfold lower_index, py_int.
  change (Qnum ((15 # 1000) * inject_Z n)) with (15 * n).
  change (Z.pos (Qden ((15 # 1000) * inject_Z n))) with 1000.
  rewrite Z.quot_div_nonneg by lia. split.
  - apply Z.div_pos; lia.
  - apply Z.div_lt_upper_bound; lia.
Qed.

Lemma upper_index_range (n : Z) : 1 <= n -> 0 <= upper_index n < n.
Proof.
  intros Hn. unfold upper_index, py_int.
  change (Qnum ((985 # 1000) * inject_Z n)) with (985 * n).
  change (Z.pos (Qden ((985 # 1000) * inject_Z n))) with 1000.
  rewrite Z.quot_div_nonneg by lia. split.
  - apply Z.div_pos; lia.
  - apply Z.div_lt_upper_bound; lia.
Qed.

Lemma agree_from_spec (lo hi : float) (count : nat) (n : Z) :
  agree_from lo hi n count = true ->
  forall m, n <= m < n + Z.of_nat count -> indices_agree lo hi m = true.
Proof.
  revert n. induction count as [|c IH]; intros n H m Hm; [lia|].
  cbn [agree_from] in H. apply andb_prop in H as [H1 H2].
  destruct (Z.eq_dec m n) as [->|Hne]; [exact H1|].
  apply (IH (n + 1)); [exact H2 | lia].
Qed.

Lemma agree_from_default :
  agree_from (double_of_Q (15 # 1000)) (double_of_Q (985 # 1000)) 0
             (Z.to_nat 10001) = true.
Proof. vm_compute. reflexivity. Qed.

(** Up to the default number of iterations, the two indices are those
    that the binary64 products [0.015 * n] and [0.985 * n] truncate
    to. *)
Lemma interval_indices_binary64 (n : Z) :
  0 <= n <= default_iterations ->
  index_float (double_of_Q (15 # 1000)) n = Ok (lower_index n) /\
  index_float (double_of_Q (985 # 1000)) n = Ok (upper_index n).
Proof.
  intros Hn. unfold default_iterations in Hn.
  pose proof (agree_from_spec _ _ _ _ agree_from_default n ltac:(lia)) as H.
  unfold indices_agree in H.
  destruct (index_float (double_of_Q (15 # 1000)) n) as [l|]; [|discriminate].
  destruct (index_float (double_of_Q (985 # 1000)) n) as [u|]; [|discriminate].
  apply andb_prop in H as [Hl Hu].
  apply Z.eqb_eq in Hl, Hu. now subst.
Qed.

Lemma num_bins_nonneg (n : Z) : 0 <= n -> num_bins n = Ok 100.
Proof.
  intros Hn. unfold num_bins, int_np_sqrt.
  destruct (n <? 0) eqn:E; [lia|]. f_equal.
  pose proof (Z.sqrt_nonneg n). lia.
Qed.

Lemma num_bins_ok (n b : Z) : num_bins n = Ok b -> 0 <= n /\ b = 100.
Proof.
  unfold num_bins, int_np_sqrt. destruct (n <? 0) eqn:E; [discriminate|].
  intros H. injection H as <-. pose proof (Z.sqrt_nonneg n). lia.
Qed.

(** A run that gets as far as the density estimate hands it the trimmed
    samples. *)
Lemma get_monte_carlo_reaches_kde (st : state) (raw : list Q) (k : Z) :
  iterations (self st) = Z.of_nat (length raw) ->
  sampled st raw ->
  nondegenerate raw ->
  mc_offset (outliers (self st)) (np_sort raw) = Ok k ->
  calls (snd (get_monte_carlo st)) =
  calls st ++ [sampler_call st; CallKde (filter_outliers k (np_sort raw))].
Proof.
  intros Hn Hraw Hnd Hk.
  assert (raw <> []) as Hne.
  { destruct Hnd as (x & _ & Hx & _). intros ->. inversion Hx. }
  assert (1 <= iterations (self st)) as Hpos
    by (destruct raw; [congruence | simpl in Hn; lia]).
  unfold get_monte_carlo, bind, get_self, external, lift, ret.
  destruct (iterations (self st) =? 0) eqn:E0; [lia|].
  unfold log; cbn [self config_p calls]. unfold sampled in Hraw. rewrite Hraw.
  pose proof (nondegenerate_not_one _ (nondegenerate_sort _ Hnd)) as Hu.
  apply Nat.eqb_neq in Hu. rewrite Hu, Hk.
  destruct (py_getitem_in_range (np_sort raw) (lower_index (iterations (self st))))
    as [lower ->].
  { rewrite np_sort_length, <- Hn. now apply lower_index_range. }
  destruct (py_getitem_in_range (np_sort raw) (upper_index (iterations (self st))))
    as [upper ->].
  { rewrite np_sort_length, <- Hn. now apply upper_index_range. }
  rewrite num_bins_nonneg by lia. unfold log; cbn [self config_p calls].
  rewrite <- app_assoc. cbn [app].
  destruct (gaussian_kde _); cbn [snd calls]; [|reflexivity].
  destruct (np_min _); cbn [snd calls]; [|reflexivity].
  destruct (np_max _); cbn [snd calls]; [|reflexivity].
  destruct (np_histogram _ _); cbn [snd calls]; reflexivity.
Qed.

(** ** Extremes, [linspace] and [histogram] *)

Lemma fold_Qmin_le (r : list Q) (x : Q) : (fold_left Qmin r x <= x)%Q.
Proof.
  revert x. induction r as [|y r IH]; intros x; simpl.
  - apply Qle_refl.
  - eapply Qle_trans; [apply IH | apply Q.le_min_l].
Qed.

Lemma fold_Qmax_ge (r : list Q) (x : Q) : (x <= fold_left Qmax r x)%Q.
Proof.
  revert x. induction r as [|y r IH]; intros x; simpl.
  - apply Qle_refl.
  - eapply Qle_trans; [apply Q.le_max_l | apply IH].
Qed.

Lemma np_min_le_max (l : list Q) (lo hi : Q) :
  np_min l = Ok lo -> np_max l = Ok hi -> (lo <= hi)%Q.
Proof.
  destruct l as [|x r]; [discriminate|]. simpl.
  intros H1 H2. injection H1 as <-. injection H2 as <-.
  eapply Qle_trans; [apply fold_Qmin_le | apply fold_Qmax_ge].
Qed.

Lemma np_linspace_length (start stop : float) (num : nat) :
  length (np_linspace start stop num) = num.
Proof.
  destruct num as [|[|k]]; [reflexivity | reflexivity |].
  cbn [np_linspace]. rewrite length_app, length_map, length_seq. simpl. lia.
Qed.

(** The first point equals the start when the step is finite, and the
    last point is the end. *)
Lemma np_linspace_first (start stop : float) (num : nat) :
  (2 <= num)%nat ->
  finite start = true ->
  finite (linspace_step start stop num) = true ->
  exists x, head (np_linspace start stop num) = Some x /\ SFeqb x start = true.
Proof.
  intros H Hstart Hstep. destruct num as [|[|k]]; [lia | lia |].
  cbn [np_linspace seq map app head]. eexists. split; [reflexivity|].
  change (Z.of_nat 0) with 0. rewrite float_of_Z_zero.
  destruct (fmul_zero_finite _ Hstep) as [s ->].
  now apply fadd_zero_finite.
Qed.

Lemma np_linspace_last (start stop : float) (num : nat) :
  (2 <= num)%nat -> last (np_linspace start stop num) = Some stop.
Proof.
  intros H. destruct num as [|[|k]]; [lia | lia |].
  cbn [np_linspace]. apply last_snoc.
Qed.

Lemma np_diff_length (l : list float) : length (np_diff l) = pred (length l).
Proof.
  induction l as [|x [|y r] IH]; [reflexivity | reflexivity |].
  change (np_diff (x :: y :: r)) with (fsub y x :: np_diff (y :: r)).
  simpl length in *. lia.
Qed.

Lemma np_diff_Z_length (l : list Z) : length (np_diff_Z l) = pred (length l).
Proof.
  induction l as [|x [|y r] IH]; [reflexivity | reflexivity |].
  change (np_diff_Z (x :: y :: r)) with ((y - x) :: np_diff_Z (y :: r)).
  simpl length in *. lia.
Qed.

Lemma removelast_length {A : Type} (l : list A) :
  length (removelast l) = pred (length l).
Proof.
  induction l as [|x [|y r] IH]; [reflexivity | reflexivity |].
  change (removelast (x :: y :: r)) with (x :: removelast (y :: r)).
  simpl length in *. lia.
Qed.

(** What [np.histogram] answers: as many heights as bins and one edge
    more, the edges being those of [np.linspace] over the range. *)
Lemma np_histogram_shape (a : list Q) (bins : Z) (heights edges : list float) :
  np_histogram a bins = Ok (heights, edges) ->
  length heights = Z.to_nat bins /\
  length edges = S (Z.to_nat bins) /\
  edges = np_linspace (fst (histogram_range a)) (snd (histogram_range a))
                      (S (Z.to_nat bins)).
Proof.
  unfold np_histogram. destruct (bins <? 1) eqn:Eb; [discriminate|].
  cbv zeta.
  pose proof (np_linspace_length (fst (histogram_range a))
                (snd (histogram_range a)) (S (Z.to_nat bins))) as Hlen.
  set (grid := np_linspace (fst (histogram_range a)) (snd (histogram_range a))
                           (S (Z.to_nat bins))) in *.
  set (cum := map (searchsorted_left (np_sort a)) (removelast grid) ++
              [searchsorted_right (np_sort a) (List.last grid float_zero)]).
  assert (length cum = S (Z.to_nat bins)) as Hcl.
  { subst cum. rewrite length_app, length_map, removelast_length, Hlen.
    simpl. lia. }
  clearbody cum.
  intros H. injection H as <- <-.
  split; [|split; [exact Hlen | reflexivity]].
  rewrite length_map, length_combine, np_diff_Z_length, np_diff_length, Hcl, Hlen.
  simpl. lia.
Qed.

(** ** The step polyline *)

Lemma np_repeat2_length {A : Type} (l : list A) :
  length (np_repeat2 l) = (2 * length l)%nat.
Proof. induction l as [|x r IH]; simpl in *; lia. Qed.

Lemma combine_fst {A B : Type} (l : list A) (k : list B) :
  length l = length k -> map fst (combine l k) = l.
Proof.
  revert k. induction l as [|x l IH]; intros [|y k] H; try discriminate; simpl.
  - reflexivity.
  - f_equal. apply IH. simpl in H. lia.
Qed.

Lemma combine_snd {A B : Type} (l : list A) (k : list B) :
  length l = length k -> map snd (combine l k) = k.
Proof.
  revert k. induction l as [|x l IH]; intros [|y k] H; try discriminate; simpl.
  - reflexivity.
  - f_equal. apply IH. simpl in H. lia.
Qed.

Lemma step_polyline_sides (hist_ys hist_xs : list float) :
  length hist_xs = S (length hist_ys) ->
  map fst (step_polyline hist_ys hist_xs) = np_repeat2 hist_xs /\
  map snd (step_polyline hist_ys hist_xs)
    = [float_zero] ++ np_repeat2 hist_ys ++ [float_zero].
Proof.
  intros H. unfold step_polyline.
  assert (length (np_repeat2 hist_xs)
          = length ([float_zero] ++ np_repeat2 hist_ys ++ [float_zero])) as Hlen.
  { rewrite !length_app, !np_repeat2_length, H. simpl. lia. }
  split; [now apply combine_fst | now apply combine_snd].
Qed.

Lemma np_histogram_ok (a : list Q) (bins : Z) :
  1 <= bins -> exists hist, np_histogram a bins = Ok hist.
Proof.
  intros H. unfold np_histogram.
  assert ((bins <? 1) = false) as -> by lia.
  eexists. reflexivity.
Qed.

(** A run on a non-degenerate sample set of the requested size whose
    offset is computed, whose trimmed part is not empty and is accepted
    by the density fit answers a summary. *)
Lemma get_monte_carlo_returns (st : state) (raw : list Q) (k : Z)
    (kde : float -> float) :
  iterations (self st) = Z.of_nat (length raw) ->
  sampled st raw ->
  nondegenerate raw ->
  mc_offset (outliers (self st)) (np_sort raw) = Ok k ->
  filter_outliers k (np_sort raw) <> [] ->
  gaussian_kde (filter_outliers k (np_sort raw)) = Ok kde ->
  exists s st', get_monte_carlo st = (Ok (Some s), st').
Proof.
  intros Hn Hraw Hnd Hoff Hne Hk.
  assert (1 <= iterations (self st)) as Hpos.
  { destruct Hnd as (x & _ & Hx & _). destruct raw; [inversion Hx|].
    simpl in Hn. lia. }
  unfold get_monte_carlo, bind, get_self, external, lift, ret.
  destruct (iterations (self st) =? 0) eqn:E0; [lia|].
  unfold log; cbn [self config_p calls]. unfold sampled in Hraw. rewrite Hraw.
  pose proof (nondegenerate_not_one _ (nondegenerate_sort _ Hnd)) as Hu.
  apply Nat.eqb_neq in Hu. rewrite Hu, Hoff.
  destruct (py_getitem_in_range (np_sort raw) (lower_index (iterations (self st))))
    as [lower ->].
  { rewrite np_sort_length, <- Hn. now apply lower_index_range. }
  destruct (py_getitem_in_range (np_sort raw) (upper_index (iterations (self st))))
    as [upper ->].
  { rewrite np_sort_length, <- Hn. now apply upper_index_range. }
  rewrite num_bins_nonneg by lia. unfold log; cbn [self config_p calls].
  rewrite Hk.
  destruct (np_histogram_ok (filter_outliers k (np_sort raw)) 100)
    as [hist Hh]; [lia|].
  rewrite Hh.
  destruct (filter_outliers k (np_sort raw)) as [|x r]; [congruence|].
  cbn [np_min np_max]. eexists. eexists. reflexivity.
Qed.

(** ** Monte Carlo post-processing *)


(** C2: whenever a summary is answered, its interval is the pair of
    entries of the sorted, untrimmed samples at positions
    [floor(0.015 * iterations)] and [floor(0.985 * iterations)], and the
    same report with any other trimming fraction answers the same
    interval. *)
Theorem C2_interval_untrimmed (st st' : state) (s : mc_summary) :
  get_monte_carlo st = (Ok (Some s), st') ->
  (exists raw lower upper,
     sampled st raw /\
     np_sort raw !! Z.to_nat (Qfloor ((15 # 1000) * inject_Z (iterations (self st))))
       = Some lower /\
     np_sort raw !! Z.to_nat (Qfloor ((985 # 1000) * inject_Z (iterations (self st))))
       = Some upper /\
     interval (statistics s) = [lower; upper]) /\
  (forall out st2' s2,
     get_monte_carlo (with_outliers out st) = (Ok (Some s2), st2') ->
     interval (statistics s2) = interval (statistics s)).
Proof.
  intros H. apply get_monte_carlo_summary in H.
  destruct H as [raw offset lower upper bins kde lo hi hist Hreq Hraw _ _ Hl Hu Hb
                 _ _ _ _ _ ->].
  apply num_bins_ok in Hb as [Hn _].
  assert (1 <= iterations (self st)) as Hpos by lia.
  split.
  - exists raw, lower, upper. repeat split; try assumption.
    + rewrite <- lower_index_floor by exact Hn.
      apply py_getitem_lookup; [apply lower_index_range, Hpos | exact Hl].
    + rewrite <- upper_index_floor by exact Hn.
      apply py_getitem_lookup; [apply upper_index_range, Hpos | exact Hu].
  - intros out st2' s2 H2. apply get_monte_carlo_summary in H2.
    destruct H2 as [raw2 offset2 lower2 upper2 ? ? ? ? ? _ Hraw2 _ _ Hl2 Hu2
                    _ _ _ _ _ _ ->].
    unfold sampled in Hraw, Hraw2. simpl in Hraw2, Hl2, Hu2.
    rewrite Hraw in Hraw2. injection Hraw2 as <-.
    rewrite Hl in Hl2. rewrite Hu in Hu2.
    injection Hl2 as <-. injection Hu2 as <-. reflexivity.
Qed.

(** C3: for every number of iterations that has a square root the bin
    count [max(100, min(20, floor(sqrt(iterations))))] is 100, and no
    other bin count is ever computed. *)
Theorem C3_num_bins_constant (n : Z) :
  (0 <= n -> num_bins n = Ok 100) /\
  (forall b, num_bins n = Ok b -> b = 100).
Proof.
  split; [apply num_bins_nonneg|].
  intros b H. now apply num_bins_ok in H.
Qed.

(** C4: with [iterations = 0] the answer is [None] and nothing else
    happens: the state, and with it the list of calls to collaborators,
    is unchanged, whatever [cpus], [outliers] and the sampler are. *)
Theorem C4_zero_iterations (st : state) :
  iterations (self st) = 0 -> get_monte_carlo st = (Ok None, st).
Proof.
  intros H. unfold get_monte_carlo, bind, get_self, ret. now rewrite H.
Qed.

(** C5: when the sampler answers a non-empty set of identical samples,
    the answer is [None], not an exception and not a summary. *)
Theorem C5_identical_samples (st : state) (raw : list Q) :
  sampled st raw -> all_identical raw -> fst (get_monte_carlo st) = Ok None.
Proof.
  intros Hraw Hid.
  unfold get_monte_carlo, bind, get_self, external, lift, ret.
  destruct (iterations (self st) =? 0); [reflexivity|].
  unfold log; cbn [self config_p calls]. unfold sampled in Hraw. rewrite Hraw.
  apply all_identical_sort, np_unique_one in Hid. now rewrite Hid.
Qed.



(** ** What each method leaves behind *)

Lemma dumps_of_app (l k : list event) :
  dumps_of (l ++ k) = dumps_of l ++ dumps_of k.
Proof.
  induction l as [|e l IH]; [reflexivity|].
  destruct e; simpl; now rewrite IH.
Qed.

Ltac run_step :=
  match goal with
  | |- context [match ?r with Ok _ => _ | Raise _ => _ end] => destruct r
  | |- context [if ?b then _ else _] => destruct b
  end; cbn [fst snd].

Ltac frame_done :=
  cbn [fst snd]; unfold log, store_report;
  cbn [self config_p calls uuid report];
  rewrite ?dumps_of_app; cbn [dumps_of]; rewrite ?app_nil_r;
  repeat split; auto.

Lemma get_monte_carlo_frame (st : state) :
  self (snd (get_monte_carlo st)) = self st /\
  config_p (snd (get_monte_carlo st)) = config_p st /\
  dumps_of (calls (snd (get_monte_carlo st))) = dumps_of (calls st).
Proof.
  unfold get_monte_carlo, bind, get_self, external, lift, ret. cbn [fst snd].
  repeat run_step; frame_done.
Qed.

Lemma get_force_directed_frame (st : state) :
  self (snd (get_force_directed st)) = self st /\
  config_p (snd (get_force_directed st)) = config_p st /\
  dumps_of (calls (snd (get_force_directed st))) = dumps_of (calls st).
Proof.
  unfold get_force_directed, bind, get_self, external. cbn [fst snd].
  repeat run_step; frame_done.
Qed.

(** [calculate] either fails and leaves the object as it was, or stores
    a document whose metadata are the type tag, the version and the
    object's identifier. *)
Lemma calculate_frame (st : state) :
  uuid (self (snd (calculate st))) = uuid (self st) /\
  config_p (snd (calculate st)) = config_p st /\
  dumps_of (calls (snd (calculate st))) = dumps_of (calls st) /\
  (report (self (snd (calculate st))) = report (self st) \/
   exists doc, report (self (snd (calculate st))) = Some doc /\
     r_metadata doc =
       <["type" := PStr "Brightway2 serialized LCA report"]>
         (<["version" := PInt version]> (<["uuid" := PStr (uuid (self st))]> ∅))).
Proof.
  unfold calculate, bind, get_self, external, set_report. cbn [fst snd].
  destruct (lca_sections _ _) as [sec|e]; [|frame_done].
  pose proof (get_force_directed_frame (log (CallLCA (activity (self st))
                                                     (method (self st))) st))
    as (Hs1 & Hc1 & Hd1).
  destruct (get_force_directed _) as [[fd|e] st1]; cbn [fst snd] in *;
    [|rewrite Hs1, Hc1, Hd1; frame_done].
  pose proof (get_monte_carlo_frame st1) as (Hs2 & Hc2 & Hd2).
  destruct (get_monte_carlo st1) as [[mc|e] st2]; cbn [fst snd] in *.
  - unfold store_report; cbn [self config_p calls uuid report].
    rewrite Hs2, Hs1, Hc2, Hc1, Hd2, Hd1. frame_done.
    right. eexists. split; reflexivity.
  - rewrite Hs2, Hs1, Hc2, Hc1, Hd2, Hd1. frame_done.
Qed.

(** [write] leaves the object alone and writes at most one file: the
    object's document, under the name made from its identifier. *)
Lemma write_frame (st : state) :
  self (snd (write st)) = self st /\
  config_p (snd (write st)) = config_p st /\
  (dumps_of (calls (snd (write st))) = dumps_of (calls st) \/
   exists doc dirpath,
     report (self st) = Some doc /\
     request_dir "reports" = Ok dirpath /\
     dumps_of (calls (snd (write st))) =
       dumps_of (calls st)
       ++ [(doc, os_path_join dirpath ("report." +:+ uuid (self st) +:+ ".json"))]).
Proof.
  unfold write, bind, get_self, external, lift, getattr_report, report_filename.
  cbn [fst snd].
  destruct (request_dir "reports") as [dirpath|e] eqn:Ed; [|frame_done].
  destruct (report (self st)) as [doc|] eqn:Er; cbn [fst snd]; [|frame_done].
  unfold log; cbn [self config_p calls]. repeat split.
  right. exists doc, dirpath. repeat split.
  rewrite !dumps_of_app. cbn [dumps_of]. rewrite app_nil_r. reflexivity.
Qed.

(** The complete behaviour of [upload] once the request was answered. *)
Lemma upload_posted (st : state) (url : string) (doc : Report) (status : Z) :
  posted st url doc status ->
  upload st =
  if status =? 200
  then (Ok (PStr (url +:+ "report/" +:+ uuid (self st))),
        store_report (set_online doc (url +:+ "report/" +:+ uuid (self st)))
                     (log (post_call url doc) st))
  else (Ok (PBool false), log (post_call url doc) st).
Proof.
  intros (Ha & Hu & Hr & Hp).
  unfold upload, bind, get_self, get_config, external, lift, raise, ret,
    set_report, getattr_report, post_call.
  rewrite Ha, Hu, Hr. cbn [negb fst snd]. rewrite Hp.
  destruct (status =? 200); reflexivity.
Qed.

(** Every way [upload] can end. *)
Lemma upload_cases (st : state) :
  (exists e, upload st = (Raise e, st)) \/
  (exists url doc e,
     server_url (config_p st) = Ok url /\ report (self st) = Some doc /\
     upload st = (Raise e, log (post_call url doc) st)) \/
  (exists url doc status, posted st url doc status).
Proof.
  unfold posted.
  destruct (uploads_allowed (config_p st)) eqn:Ha.
  2:{ left. eexists. unfold upload, bind, get_self, get_config, raise.
      rewrite Ha. reflexivity. }
  destruct (server_url (config_p st)) as [url|e] eqn:Hu.
  2:{ left. eexists. unfold upload, bind, get_self, get_config, lift.
      rewrite Ha, Hu. reflexivity. }
  destruct (report (self st)) as [doc|] eqn:Hr.
  2:{ left. eexists. unfold upload, bind, get_self, get_config, lift,
        getattr_report.
      rewrite Ha, Hu, Hr. reflexivity. }
  destruct (requests_post (url +:+ "upload") (JsonWrapper_dumps doc))
    as [status|e] eqn:Hp.
  - right. right. exists url, doc, status. auto.
  - right. left. exists url, doc, e. repeat split.
    unfold upload, bind, get_self, get_config, lift, external, getattr_report,
      post_call.
    rewrite Ha, Hu, Hr. cbn [negb fst snd]. rewrite Hp. reflexivity.
Qed.

(** ** Identifier, persistence and upload *)

Lemma fresh_metadata_identified (u : string) (doc : Report) :
  r_metadata doc =
    <["type" := PStr "Brightway2 serialized LCA report"]>
      (<["version" := PInt version]> (<["uuid" := PStr u]> ∅)) ->
  report_identified u doc.
Proof.
  intros H. unfold report_identified. rewrite H. split; [|split].
  - rewrite !lookup_insert_ne by discriminate. apply lookup_insert_eq.
  - rewrite lookup_insert_ne by discriminate. apply lookup_insert_eq.
  - intros v. rewrite !lookup_insert_ne by discriminate.
    rewrite lookup_empty. discriminate.
Qed.

Lemma set_online_identified (u base : string) (doc : Report) :
  report_identified u doc ->
  report_identified u (set_online doc (base +:+ "report/" +:+ u)).
Proof.
  intros (Hu & Hv & _). unfold report_identified, set_online. cbn [r_metadata].
  split; [|split].
  - rewrite lookup_insert_ne by discriminate. exact Hu.
  - rewrite lookup_insert_ne by discriminate. exact Hv.
  - intros v. rewrite lookup_insert_eq. intros [= <-]. now exists base.
Qed.

Lemma identified_frame (u : string) (st st' : state) :
  identified u st ->
  self st' = self st ->
  dumps_of (calls st') = dumps_of (calls st) ->
  identified u st'.
Proof.
  intros (Hu & Hr & Hd) Hs Hc. unfold identified. now rewrite Hs, Hc.
Qed.

Lemma run_call_identified (u : string) (c : method_call) (st : state) :
  identified u st -> identified u (run_call c st).
Proof.
  intros Hid. destruct c; cbn [run_call].
  - destruct (calculate_frame st) as (Hu & _ & Hd & Hr).
    destruct Hid as (Hid1 & Hid2 & Hid3). unfold identified.
    rewrite Hu, Hd. split; [exact Hid1|]. split; [|exact Hid3].
    intros doc Hdoc. destruct Hr as [Hr | (doc' & Hr & Hm)].
    + apply Hid2. now rewrite <- Hr.
    + rewrite Hr in Hdoc. injection Hdoc as <-.
      apply fresh_metadata_identified. now rewrite Hm, Hid1.
  - destruct (get_monte_carlo_frame st) as (Hs & _ & Hd).
    now apply (identified_frame u st).
  - destruct (get_force_directed_frame st) as (Hs & _ & Hd).
    now apply (identified_frame u st).
  - destruct (write_frame st) as (Hs & _ & [Hd | (doc & dirpath & Hr & _ & Hd)]).
    + now apply (identified_frame u st).
    + destruct Hid as (Hid1 & Hid2 & Hid3). unfold identified.
      rewrite Hs, Hd. split; [exact Hid1|]. split; [exact Hid2|].
      intros doc' filepath H.
      apply elem_of_app in H as [H | H]; [now apply Hid3|].
      apply list_elem_of_singleton in H. injection H as -> ->.
      split; [now apply Hid2|]. exists dirpath. now rewrite Hid1.
  - destruct (upload_cases st)
      as [(e & E) | [(url & doc & e & _ & _ & E) | (url & doc & status & Hp)]].
    + now rewrite E.
    + rewrite E. cbn [snd]. apply (identified_frame u st); [exact Hid | reflexivity |].
      unfold log. cbn [calls]. rewrite dumps_of_app. apply app_nil_r.
    + rewrite (upload_posted _ _ _ _ Hp).
      assert (dumps_of (calls (log (post_call url doc) st)) = dumps_of (calls st))
        as Hd.
      { unfold log. cbn [calls]. rewrite dumps_of_app. apply app_nil_r. }
      destruct (status =? 200); cbn [snd];
        [|now apply (identified_frame u st)].
      destruct Hid as (Hid1 & Hid2 & Hid3). destruct Hp as (_ & _ & Hr & _).
      unfold identified, store_report. cbn [self config_p calls uuid report log].
      rewrite dumps_of_app. cbn [dumps_of]. rewrite app_nil_r.
      split; [exact Hid1|]. split; [|exact Hid3].
      intros doc' [= <-]. rewrite Hid1.
      apply set_online_identified. now apply Hid2.
Qed.

Lemma run_calls_identified (u : string) (cs : list method_call) (st : state) :
  identified u st -> identified u (run_calls cs st).
Proof.
  revert st. induction cs as [|c cs IH]; intros st H; [exact H|].
  apply IH, run_call_identified, H.
Qed.

Lemma upload_answers_url (st : state) (url : string) :
  fst (upload st) = Ok (PStr url) ->
  exists base, url = base +:+ "report/" +:+ uuid (self st).
Proof.
  destruct (upload_cases st)
    as [(e & E) | [(base & doc & e & _ & _ & E) | (base & doc & status & Hp)]].
  - rewrite E. discriminate.
  - rewrite E. discriminate.
  - rewrite (upload_posted _ _ _ _ Hp). destruct (status =? 200); cbn [fst].
    + intros [= <-]. now exists base.
    + discriminate.
Qed.

(** C8: the identifier given at construction is the object's
    identifier after any sequence of [calculate], [get_monte_carlo],
    [get_force_directed], [write] and [upload]; the stored document
    names it with schema version 1, every file written is
    [report.<uuid>.json] in some directory, every address answered by
    [upload] ends in [report/<uuid>], and [version] is 1. *)
Theorem C8_uuid_fixed_at_construction
    (a : activity_t) (m : method_t) (n : Z) (workers : option Z) (out : float)
    (uuid4_hex : string) (p : gmap string pyval) (cs : list method_call) :
  uuid (init a m n workers out uuid4_hex) = uuid4_hex /\
  identified uuid4_hex
    (run_calls cs (mkState (init a m n workers out uuid4_hex) p [])) /\
  (forall url,
     fst (upload (run_calls cs (mkState (init a m n workers out uuid4_hex) p [])))
       = Ok (PStr url) ->
     exists base, url = base +:+ "report/" +:+ uuid4_hex) /\
  version = 1.
Proof.
  assert (identified uuid4_hex
            (run_calls cs (mkState (init a m n workers out uuid4_hex) p [])))
    as Hid.
  { apply run_calls_identified. unfold identified, init.
    cbn [self uuid report calls dumps_of].
    split; [reflexivity|]. split; [intros doc H; discriminate|].
    intros doc filepath H. inversion H. }
  split; [reflexivity|]. split; [exact Hid|]. split; [|reflexivity].
  intros url H. apply upload_answers_url in H as [base ->].
  exists base. now destruct Hid as (-> & _).
Qed.

(** C9: without the [upload_reports] flag or without the
    [report_server_url] preference, [upload] raises
    [ValueError("Report uploading not allowed")] at once, before any
    request and with the state untouched; when the request is answered
    with a status other than 200 it returns [False]; when it is answered
    with 200 it returns the server address followed by
    [report/<uuid>]. *)
Theorem C9_upload_outcomes (st : state) :
  (config_p st !! "upload_reports" = None \/
   config_p st !! "report_server_url" = None ->
   upload st = (Raise (ValueError "Report uploading not allowed"), st)) /\
  (forall url doc status,
     posted st url doc status -> status <> 200 ->
     fst (upload st) = Ok (PBool false)) /\
  (forall url doc,
     posted st url doc 200 ->
     fst (upload st) = Ok (PStr (url +:+ "report/" +:+ uuid (self st)))).
Proof.
  split; [|split].
  - intros H. unfold upload, bind, get_self, get_config, raise.
    assert (uploads_allowed (config_p st) = false) as ->; [|reflexivity].
    unfold uploads_allowed, dict_get.
    destruct H as [-> | ->]; [reflexivity | apply andb_false_r].
  - intros url doc status Hp Hs. rewrite (upload_posted _ _ _ _ Hp).
    apply Z.eqb_neq in Hs. now rewrite Hs.
  - intros url doc Hp. now rewrite (upload_posted _ _ _ _ Hp).
Qed.

(** C10: [upload] changes the object exactly when it succeeds.  After a
    200 answer the document is the old one with metadata key [online]
    set to the address that is returned; after any other answer the
    result is [False] and the object is as before; and whenever the
    object has changed, an address was returned. *)
Theorem C10_upload_mutation (st : state) :
  (forall url doc,
     posted st url doc 200 ->
     let report_url := url +:+ "report/" +:+ uuid (self st) in
     fst (upload st) = Ok (PStr report_url) /\
     report (self (snd (upload st))) = Some (set_online doc report_url) /\
     r_metadata (set_online doc report_url) =
       <["online" := PStr report_url]> (r_metadata doc)) /\
  (forall url doc status,
     posted st url doc status -> status <> 200 ->
     fst (upload st) = Ok (PBool false) /\ self (snd (upload st)) = self st) /\
  (self (snd (upload st)) <> self st ->
   exists report_url, fst (upload st) = Ok (PStr report_url)).
Proof.
  split; [|split].
  - intros url doc Hp. rewrite (upload_posted _ _ _ _ Hp). cbn. auto.
  - intros url doc status Hp Hs. rewrite (upload_posted _ _ _ _ Hp).
    apply Z.eqb_neq in Hs. rewrite Hs. auto.
  - intros Hne.
    destruct (upload_cases st)
      as [(e & E) | [(url & doc & e & _ & _ & E) | (url & doc & status & Hp)]].
    + rewrite E in Hne. now contradiction Hne.
    + rewrite E in Hne. now contradiction Hne.
    + rewrite (upload_posted _ _ _ _ Hp) in *.
      destruct (status =? 200); [now eexists|]. now contradiction Hne.
Qed.

(** ** Further properties of the Monte Carlo post-processing *)

Lemma sort_insert_sorted (x : Q) (l : list Q) :
  Sorted Qle l -> Sorted Qle (sort_insert x l).
Proof.
  induction 1 as [|y l Hs IH Hd]; simpl.
  - repeat constructor.
  - destruct (Qle_bool x y) eqn:E.
    + apply Qle_bool_iff in E. repeat constructor; assumption.
    + assert (y <= x)%Q as Hyx.
      { apply Qlt_le_weak, Qnot_le_lt. intros H. apply Qle_bool_iff in H.
        congruence. }
      constructor; [exact IH|].
      destruct l as [|z l]; simpl.
      * constructor. exact Hyx.
      * destruct (Qle_bool x z); constructor;
          [exact Hyx | now apply HdRel_inv in Hd].
Qed.

Lemma np_sort_sorted (l : list Q) : Sorted Qle (np_sort l).
Proof.
  induction l as [|x l IH]; simpl; [constructor|].
  now apply sort_insert_sorted.
Qed.

Lemma np_sort_strongly_sorted (l : list Q) : StronglySorted Qle (np_sort l).
Proof.
  apply Sorted_StronglySorted; [|apply np_sort_sorted].
  intros x y z. apply Qle_trans.
Qed.

Lemma strongly_sorted_lookup (l : list Q) (i j : nat) (x y : Q) :
  StronglySorted Qle l -> (i <= j)%nat ->
  l !! i = Some x -> l !! j = Some y -> (x <= y)%Q.
Proof.
  intros Hs. revert i j. induction Hs as [|a l Hs IH Ha]; intros i j Hij Hi Hj.
  - discriminate.
  - destruct i as [|i]; destruct j as [|j]; simpl in *; try lia.
    + injection Hi as <-. injection Hj as <-. apply Qle_refl.
    + injection Hi as <-. rewrite Forall_forall in Ha.
      apply Ha. eapply list_elem_of_lookup_2. exact Hj.
    + apply (IH i j); [lia | assumption | assumption].
Qed.

Lemma strongly_sorted_app (l k : list Q) (x y : Q) :
  StronglySorted Qle (l ++ k) -> x ∈ l -> y ∈ k -> (x <= y)%Q.
Proof.
  induction l as [|a l IH]; intros Hs Hx Hy; [inversion Hx|].
  simpl in Hs. apply StronglySorted_inv in Hs as [Hs Ha].
  apply elem_of_cons in Hx as [-> | Hx].
  - rewrite Forall_forall in Ha. apply Ha. apply elem_of_app. now right.
  - now apply IH.
Qed.

Lemma strongly_sorted_app_r (l k : list Q) :
  StronglySorted Qle (l ++ k) -> StronglySorted Qle k.
Proof.
  induction l as [|a l IH]; intros Hs; [exact Hs|].
  simpl in Hs. apply StronglySorted_inv in Hs as [Hs _]. now apply IH.
Qed.

Lemma index_order (n : Z) : 0 <= n -> lower_index n <= upper_index n.
Proof.
  intros Hn. unfold lower_index, upper_index, py_int.
  change (Qnum ((15 # 1000) * inject_Z n)) with (15 * n).
  change (Qnum ((985 # 1000) * inject_Z n)) with (985 * n).
  change (Z.pos (Qden ((15 # 1000) * inject_Z n))) with 1000.
  change (Z.pos (Qden ((985 # 1000) * inject_Z n))) with 1000.
  rewrite !Z.quot_div_nonneg by lia. apply Z.div_le_mono; lia.
Qed.

Lemma py_slice_middle {A : Type} (a : list A) (k : Z) :
  1 <= k -> 2 * k <= Z.of_nat (length a) ->
  py_slice a k (- k) =
  take (Z.to_nat (Z.of_nat (length a) - 2 * k)) (drop (Z.to_nat k) a).
Proof.
  intros Hk Hn. unfold py_slice, slice_bound.
  assert ((k <? 0) = false) as -> by lia.
  assert ((- k <? 0) = true) as -> by lia.
  replace (Z.min k (Z.of_nat (length a))) with k by lia.
  replace (Z.max (- k + Z.of_nat (length a)) 0 - k)
    with (Z.of_nat (length a) - 2 * k) by lia.
  reflexivity.
Qed.

Lemma py_slice_nothing {A : Type} (a : list A) (k : Z) :
  k = 0 \/ (0 <= k /\ Z.of_nat (length a) <= 2 * k) ->
  py_slice a k (- k) = [].
Proof.
  intros [-> | [Hk Hn]]; [apply py_slice_zero|].
  apply length_zero_iff_nil. apply Nat2Z.inj. rewrite py_slice_length.
  unfold slice_bound.
  destruct (- k <? 0) eqn:E1; destruct (k <? 0) eqn:E2; lia.
Qed.

(** The answer [None] has only two causes. *)
Lemma get_monte_carlo_none (st st' : state) :
  get_monte_carlo st = (Ok None, st') ->
  (iterations (self st) = 0 /\ st' = st) \/
  (exists raw, sampled st raw /\ length (np_unique (np_sort raw)) = 1%nat /\
               st' = log (sampler_call st) st).
Proof.
  unfold get_monte_carlo, bind, get_self, external, lift, ret.
  destruct (iterations (self st) =? 0) eqn:E0.
  - intros [= <-]. left. split; [lia | reflexivity].
  - unfold log; cbn [self config_p calls].
    destruct (ParallelMonteCarlo _ _ _ _) as [raw|] eqn:Eraw; [|discriminate].
    destruct (length (np_unique (np_sort raw)) =? 1)%nat eqn:Eu.
    + intros [= <-]. right. exists raw. apply Nat.eqb_eq in Eu. auto.
    + destruct (mc_offset _ _); [|discriminate].
      destruct (py_getitem _ (lower_index _)); [|discriminate].
      destruct (py_getitem _ (upper_index _)); [|discriminate].
      destruct (num_bins _); [|discriminate].
      cbn [self config_p calls].
      destruct (gaussian_kde _); [|discriminate].
      destruct (np_min _); [|discriminate].
      destruct (np_max _); [|discriminate].
      destruct (np_histogram _ _); discriminate.
Qed.

(** X1: [None] is answered only when no iteration was requested or when
    the sampler answered a non-empty set of identical samples. *)
Theorem none_only_without_uncertainty (st st' : state) :
  get_monte_carlo st = (Ok None, st') ->
  iterations (self st) = 0 \/ exists raw, sampled st raw /\ all_identical raw.
Proof.
  intros H. apply get_monte_carlo_none in H as [[H _] | (raw & Hraw & Hu & _)].
  - now left.
  - right. exists raw. split; [exact Hraw|].
    apply np_unique_one in Hu. destruct Hu as [Hne Hall]. split.
    + intros ->. now apply Hne.
    + intros x y Hx Hy. apply Hall; now apply np_sort_elem_of.
Qed.

(** X2: [get_monte_carlo] has no effect on the object or on the
    preferences; it calls the sampler at most once and the density fit
    at most once, after the sampler, and nothing else. *)
Theorem get_monte_carlo_effects (st : state) :
  self (snd (get_monte_carlo st)) = self st /\
  config_p (snd (get_monte_carlo st)) = config_p st /\
  (calls (snd (get_monte_carlo st)) = calls st \/
   calls (snd (get_monte_carlo st)) = calls st ++ [sampler_call st] \/
   exists dataset,
     calls (snd (get_monte_carlo st))
     = calls st ++ [sampler_call st; CallKde dataset]).
Proof.
  unfold get_monte_carlo, bind, get_self, external, lift, ret, sampler_call.
  cbn [fst snd].
  repeat run_step; unfold log; cbn [self config_p calls];
    (split; [reflexivity|]); (split; [reflexivity|]);
    first [ left; reflexivity
          | right; left; reflexivity
          | right; right; eexists; rewrite <- app_assoc; reflexivity ].
Qed.

Lemma py_getitem_nil {A : Type} (i : Z) : py_getitem (@nil A) i = Raise IndexError.
Proof.
  unfold py_getitem. change (Z.of_nat (length (@nil A))) with 0.
  destruct (i <? 0) eqn:E.
  - replace (i + 0) with i by lia. rewrite E. reflexivity.
  - rewrite E. assert ((0 <=? i) = true) as -> by lia. reflexivity.
Qed.

(** X3: when the sampler answers no sample at all, the method raises
    right after the sampler's call: [IndexError], from the lookup of the
    lower end of the interval, for a finite trimming fraction, and
    [ValueError], from [int(nan)] in the offset, for an infinite one or
    NaN. *)
Theorem no_samples_index_error (st : state) :
  iterations (self st) <> 0 -> sampled st [] ->
  get_monte_carlo st =
  (Raise (if finite (outliers (self st)) then IndexError
          else ValueError "cannot convert float NaN to integer"),
   log (sampler_call st) st).
Proof.
  intros Hn Hraw. unfold get_monte_carlo, bind, get_self, external, lift, ret.
  apply Z.eqb_neq in Hn. rewrite Hn. unfold sampled in Hraw.
  unfold log at 1; cbn [self config_p calls]. rewrite Hraw. cbn [np_sort].
  change (np_unique []) with (@nil Q). cbn [length Nat.eqb].
  rewrite mc_offset_nil. destruct (finite (outliers (self st))); [|reflexivity].
  rewrite py_getitem_nil. reflexivity.
Qed.

(** X4: when trimming leaves nothing (the offset is 0, or twice the
    offset reaches the sample count) a non-degenerate sample set never
    gets a summary: the method raises. *)
Theorem nothing_left_raises (st : state) (raw : list Q) (k : Z) :
  iterations (self st) <> 0 ->
  sampled st raw ->
  nondegenerate raw ->
  mc_offset (outliers (self st)) (np_sort raw) = Ok k ->
  k = 0 \/ (0 <= k /\ Z.of_nat (length (np_sort raw)) <= 2 * k) ->
  exists e, fst (get_monte_carlo st) = Raise e.
Proof.
  intros Hn Hraw Hnd Hk Hoff.
  assert (filter_outliers k (np_sort raw) = []) as Hnil
    by (unfold filter_outliers; now apply py_slice_nothing).
  destruct (get_monte_carlo st) as [[[s|]|e] st'] eqn:E; cbn [fst].
  - apply get_monte_carlo_summary in E.
    destruct E as [raw' k' ? ? ? ? ? ? ? _ Hraw' _ Hk' _ _ _ _ Hlo _ _ _ _].
    unfold sampled in Hraw, Hraw'. rewrite Hraw in Hraw'. injection Hraw' as <-.
    rewrite Hk in Hk'. injection Hk' as <-.
    rewrite Hnil in Hlo. discriminate.
  - apply get_monte_carlo_none in E as [[E _] | (raw' & Hraw' & Hu & _)];
      [contradiction|].
    unfold sampled in Hraw, Hraw'. rewrite Hraw in Hraw'. injection Hraw' as <-.
    exfalso. revert Hu. apply nondegenerate_not_one, nondegenerate_sort, Hnd.
  - now exists e.
Qed.

(** X5: trimming with an offset [k >= 1] with [2 * k] at most the
    sample count cuts the sorted samples into the [k] smallest, the
    trimmed samples and the [k] greatest, in this order. *)
Theorem trimming_removes_extremes (out : float) (raw : list Q) (k : Z) :
  mc_offset out (np_sort raw) = Ok k ->
  1 <= k ->
  2 * k <= Z.of_nat (length (np_sort raw)) ->
  exists low high,
    np_sort raw = low ++ filter_outliers k (np_sort raw) ++ high /\
    length low = Z.to_nat k /\
    length high = Z.to_nat k /\
    (forall x y, x ∈ low -> y ∈ filter_outliers k (np_sort raw) -> (x <= y)%Q) /\
    (forall y z, y ∈ filter_outliers k (np_sort raw) -> z ∈ high -> (y <= z)%Q).
Proof.
  intros _ Hk Hn. unfold filter_outliers.
  rewrite (py_slice_middle _ _ Hk Hn).
  set (sorted := np_sort raw) in *.
  set (m := Z.to_nat (Z.of_nat (length sorted) - 2 * k)).
  exists (take (Z.to_nat k) sorted), (drop m (drop (Z.to_nat k) sorted)).
  assert (sorted = take (Z.to_nat k) sorted
                   ++ take m (drop (Z.to_nat k) sorted)
                   ++ drop m (drop (Z.to_nat k) sorted)) as Hsplit
    by now rewrite !take_drop.
  pose proof (np_sort_strongly_sorted raw) as Hs. fold sorted in Hs.
  rewrite Hsplit in Hs.
  split; [exact Hsplit|]. split; [rewrite length_take; lia|].
  split; [rewrite !length_drop; lia|]. split.
  - intros x y Hx Hy. apply (strongly_sorted_app _ _ x y Hs Hx).
    apply elem_of_app. now left.
  - intros y z Hy Hz. apply strongly_sorted_app_r in Hs.
    now apply (strongly_sorted_app _ _ y z Hs).
Qed.

Lemma np_repeat2_last {A : Type} (l : list A) : last (np_repeat2 l) = last l.
Proof.
  induction l as [|x l IH]; [reflexivity|].
  destruct l as [|y l]; [reflexivity|].
  change (np_repeat2 (x :: y :: l)) with (x :: x :: np_repeat2 (y :: l)).
  change (np_repeat2 (y :: l)) with (y :: y :: np_repeat2 l) in *.
  exact IH.
Qed.

(** X6: the interval of a summary is a pair of samples, the lower one
    first. *)
Theorem interval_is_ordered (st st' : state) (s : mc_summary) :
  get_monte_carlo st = (Ok (Some s), st') ->
  exists raw lower upper,
    sampled st raw /\
    interval (statistics s) = [lower; upper] /\
    lower ∈ raw /\ upper ∈ raw /\ (lower <= upper)%Q.
Proof.
  intros H. apply get_monte_carlo_summary in H.
  destruct H as [raw offset lower upper bins kde lo hi hist Hreq Hraw _ _ Hl Hu Hb
                 _ _ _ _ _ ->].
  apply num_bins_ok in Hb as [Hn _].
  assert (1 <= iterations (self st)) as Hpos by lia.
  pose proof (lower_index_range _ Hpos) as Hli.
  pose proof (upper_index_range _ Hpos) as Hui.
  apply py_getitem_lookup in Hl; [|lia]. apply py_getitem_lookup in Hu; [|lia].
  exists raw, lower, upper. split; [exact Hraw|]. split; [reflexivity|].
  split; [|split].
  - apply np_sort_elem_of. eapply list_elem_of_lookup_2. exact Hl.
  - apply np_sort_elem_of. eapply list_elem_of_lookup_2. exact Hu.
  - pose proof (index_order _ Hn) as Hord.
    eapply (strongly_sorted_lookup (np_sort raw));
      [apply np_sort_strongly_sorted | | exact Hl | exact Hu].
    lia.
Qed.


(** ** Further properties of [calculate], [write] and [upload] *)

Lemma append_cons (a : ascii) (s t : string) :
  String a s +:+ t = String a (s +:+ t).
Proof. reflexivity. Qed.

Lemma append_length (s t : string) :
  String.length (s +:+ t) = (String.length s + String.length t)%nat.
Proof.
  induction s as [|a s IH]; [reflexivity|].
  rewrite append_cons. simpl. now rewrite IH.
Qed.

Lemma append_cancel_l (p s t : string) : p +:+ s = p +:+ t -> s = t.
Proof.
  induction p as [|a p IH]; [intros H; exact H|].
  rewrite !append_cons. intros [= H]. now apply IH.
Qed.

Lemma append_cancel_r (s1 s2 t : string) : s1 +:+ t = s2 +:+ t -> s1 = s2.
Proof.
  revert s2. induction s1 as [|a s1 IH]; intros [|b s2] H.
  - reflexivity.
  - apply (f_equal String.length) in H. rewrite append_cons in H.
    change ("" +:+ t) with t in H. simpl in H. rewrite append_length in H. lia.
  - apply (f_equal String.length) in H. rewrite append_cons in H.
    change ("" +:+ t) with t in H. simpl in H. rewrite append_length in H. lia.
  - rewrite !append_cons in H. injection H as -> H. f_equal. now apply IH.
Qed.

Lemma last_char_app_slash (s : string) : last_char (s +:+ "/") = Some "/"%char.
Proof.
  induction s as [|a s IH]; [reflexivity|].
  rewrite append_cons. destruct s as [|b s]; [reflexivity|].
  rewrite append_cons in *. exact IH.
Qed.

Lemma last_char_nonempty (s : string) (c : ascii) :
  last_char s = Some c -> String.eqb s "" = false.
Proof. destruct s; [discriminate | reflexivity]. Qed.

Lemma app_slash_nonempty (s : string) : String.eqb (s +:+ "/") "" = false.
Proof. destruct s; reflexivity. Qed.

(** [calculate], step by step. *)
Lemma calculate_unfold (st : state) :
  calculate st =
  match lca_sections (activity (self st)) (method (self st)) with
  | Raise e =>
      (Raise e, log (CallLCA (activity (self st)) (method (self st))) st)
  | Ok sec =>
      match graph_traversal (activity (self st)) (method (self st)) with
      | Raise e =>
          (Raise e,
           log (CallGraphTraversal (activity (self st)) (method (self st)))
               (log (CallLCA (activity (self st)) (method (self st))) st))
      | Ok fd =>
          match get_monte_carlo
                  (log (CallGraphTraversal (activity (self st)) (method (self st)))
                       (log (CallLCA (activity (self st)) (method (self st))) st))
          with
          | (Ok mc, st2) =>
              (Ok tt,
               store_report
                 (mkReport (sec_activity sec) (sec_method sec) (sec_score sec)
                    (sec_contribution sec) fd mc
                    (<["type" := PStr "Brightway2 serialized LCA report"]>
                       (<["version" := PInt version]>
                          (<["uuid" := PStr (uuid (self st))]> ∅))))
                 st2)
          | (Raise e, st2) => (Raise e, st2)
          end
      end
  end.
Proof.
  unfold calculate, get_force_directed, bind, get_self, external, set_report.
  destruct (lca_sections _ _) as [sec|e]; [|reflexivity].
  change (self (log (CallLCA (activity (self st)) (method (self st))) st))
    with (self st).
  destruct (graph_traversal _ _) as [fd|e]; reflexivity.
Qed.

(** What a successful [calculate] has done. *)
Lemma calculate_success (st st' : state) :
  calculate st = (Ok tt, st') ->
  exists sec fd mc st2,
    lca_sections (activity (self st)) (method (self st)) = Ok sec /\
    graph_traversal (activity (self st)) (method (self st)) = Ok fd /\
    get_monte_carlo
      (log (CallGraphTraversal (activity (self st)) (method (self st)))
           (log (CallLCA (activity (self st)) (method (self st))) st))
      = (Ok mc, st2) /\
    st' = store_report
            (mkReport (sec_activity sec) (sec_method sec) (sec_score sec)
               (sec_contribution sec) fd mc
               (<["type" := PStr "Brightway2 serialized LCA report"]>
                  (<["version" := PInt version]>
                     (<["uuid" := PStr (uuid (self st))]> ∅))))
            st2.
Proof.
  rewrite calculate_unfold.
  destruct (lca_sections _ _) as [sec|e]; [|discriminate].
  destruct (graph_traversal _ _) as [fd|e]; [|discriminate].
  destruct (get_monte_carlo _) as [[mc|e] st2]; [|discriminate].
  intros [= <-]. exists sec, fd, mc, st2. repeat split.
Qed.

(** X9: a [calculate] that raises leaves the object as it was: no
    partial document is stored, and an earlier document stays. *)
Theorem calculate_failure_keeps_object (st : state) (e : exn) :
  fst (calculate st) = Raise e ->
  self (snd (calculate st)) = self st /\
  config_p (snd (calculate st)) = config_p st.
Proof.
  rewrite calculate_unfold.
  destruct (lca_sections _ _) as [sec|e1]; [|intros _; split; reflexivity].
  destruct (graph_traversal _ _) as [fd|e1]; [|intros _; split; reflexivity].
  match goal with
  | |- context [get_monte_carlo ?s] =>
      pose proof (get_monte_carlo_frame s) as (Hs & Hc & _);
      destruct (get_monte_carlo s) as [[mc|e1] st2]
  end; cbn [fst snd] in *; [discriminate|].
  intros _. now rewrite Hs, Hc.
Qed.

(** X10: [calculate] asks the LCA engine first, the graph traversal
    second and the Monte Carlo sampler last, and stops at the first
    failure: when the LCA engine raises nothing else is called, and when
    the graph traversal raises the sampler is not called. *)
Theorem calculate_stops_at_first_failure (st : state) (e : exn) :
  (lca_sections (activity (self st)) (method (self st)) = Raise e ->
   calculate st
   = (Raise e, log (CallLCA (activity (self st)) (method (self st))) st)) /\
  (forall sec,
     lca_sections (activity (self st)) (method (self st)) = Ok sec ->
     graph_traversal (activity (self st)) (method (self st)) = Raise e ->
     calculate st
     = (Raise e,
        log (CallGraphTraversal (activity (self st)) (method (self st)))
            (log (CallLCA (activity (self st)) (method (self st))) st))).
Proof.
  rewrite calculate_unfold. split.
  - intros H. now rewrite H.
  - intros sec H1 H2. now rewrite H1, H2.
Qed.

(** X11: with [iterations = 0] a [calculate] whose LCA engine and graph
    traversal answer succeeds without calling the sampler and stores a
    document whose ["monte carlo"] entry is [None]. *)
Theorem calculate_without_monte_carlo (st : state) (sec : lca_sections_t)
    (fd : json) :
  iterations (self st) = 0 ->
  lca_sections (activity (self st)) (method (self st)) = Ok sec ->
  graph_traversal (activity (self st)) (method (self st)) = Ok fd ->
  fst (calculate st) = Ok tt /\
  calls (snd (calculate st))
  = calls st ++ [CallLCA (activity (self st)) (method (self st));
                 CallGraphTraversal (activity (self st)) (method (self st))] /\
  exists doc, report (self (snd (calculate st))) = Some doc /\
              r_monte_carlo doc = None /\ r_force_directed doc = fd.
Proof.
  intros Hn H1 H2. rewrite calculate_unfold, H1, H2.
  unfold get_monte_carlo, bind, get_self, ret, log. cbn [self fst snd].
  rewrite Hn. cbn [Z.eqb fst snd].
  unfold store_report; cbn [self config_p calls report].
  split; [reflexivity|]. split; [now rewrite <- app_assoc|].
  eexists. repeat split.
Qed.

(** X12: the document stored by a successful [calculate] has exactly
    the metadata keys [type], [version] and [uuid]; in particular an
    [online] address set by an earlier [upload] is gone. *)
Theorem calculate_resets_metadata (st st' : state) :
  calculate st = (Ok tt, st') ->
  exists doc,
    report (self st') = Some doc /\
    dom (r_metadata doc) = ({["type"; "version"; "uuid"]} : gset string) /\
    r_metadata doc !! "uuid" = Some (PStr (uuid (self st))) /\
    r_metadata doc !! "online" = None.
Proof.
  intros H. apply calculate_success in H as (sec & fd & mc & st2 & _ & _ & _ & ->).
  eexists. split; [reflexivity|]. cbn [r_metadata]. split; [|split].
  - rewrite !dom_insert_L, dom_empty_L. set_solver.
  - rewrite !lookup_insert_ne by discriminate. apply lookup_insert_eq.
  - rewrite !lookup_insert_ne by discriminate. apply lookup_empty.
Qed.

(** X13: on an object without a document, [write] and [upload] raise;
    [write] dumps no file and [upload] leaves the state untouched, so no
    request is sent. *)
Theorem nothing_to_write_or_upload (st : state) :
  report (self st) = None ->
  (exists e, fst (write st) = Raise e /\
             self (snd (write st)) = self st /\
             dumps_of (calls (snd (write st))) = dumps_of (calls st)) /\
  (exists e, upload st = (Raise e, st)).
Proof.
  intros Hr. split.
  - unfold write, bind, get_self, external, lift, getattr_report.
    destruct (request_dir "reports") as [dirpath|e]; cbn [fst snd].
    + rewrite Hr. cbn [fst snd]. eexists. split; [reflexivity|].
      unfold log; cbn [self calls]. rewrite dumps_of_app. cbn [dumps_of].
      now rewrite app_nil_r.
    + eexists. split; [reflexivity|].
      unfold log; cbn [self calls]. rewrite dumps_of_app. cbn [dumps_of].
      now rewrite app_nil_r.
  - destruct (upload_cases st)
      as [H | [(url & doc & e & _ & Hd & _) | (url & doc & status & _ & _ & Hd & _)]].
    + exact H.
    + congruence.
    + congruence.
Qed.

(** X14: [upload] sends at most one request, and only when uploading is
    allowed and there is a document: the request goes to the server
    address followed by [upload] and carries the serialized document. *)
Theorem upload_requests (st : state) :
  config_p (snd (upload st)) = config_p st /\
  (calls (snd (upload st)) = calls st \/
   exists url doc,
     uploads_allowed (config_p st) = true /\
     server_url (config_p st) = Ok url /\
     report (self st) = Some doc /\
     calls (snd (upload st))
     = calls st ++ [CallPost (url +:+ "upload") (JsonWrapper_dumps doc)]).
Proof.
  destruct (upload_cases st)
    as [(e & E) | [(url & doc & e & Hu & Hd & E) | (url & doc & status & Hp)]].
  - rewrite E. auto.
  - rewrite E. cbn [snd]. split; [reflexivity|]. right. exists url, doc.
    repeat split; try assumption.
    unfold upload, bind, get_self, get_config, raise in E.
    destruct (uploads_allowed (config_p st)); [reflexivity|].
    cbn [negb] in E. injection E as _ E.
    apply (f_equal calls) in E. unfold log in E. cbn [calls] in E.
    apply (f_equal length) in E. rewrite length_app in E. simpl in E. lia.
  - rewrite (upload_posted _ _ _ _ Hp). destruct Hp as (Ha & Hu & Hd & _).
    destruct (status =? 200); cbn [snd]; (split; [reflexivity|]);
      right; exists url, doc; repeat split; assumption.
Qed.

(** X15: after a successful [upload], a second successful [upload]
    answers the same address and leaves the document as the first one
    left it. *)
Theorem upload_twice (st : state) (url : string) (doc : Report) :
  posted st url doc 200 ->
  requests_post (url +:+ "upload")
    (JsonWrapper_dumps (set_online doc (url +:+ "report/" +:+ uuid (self st))))
    = Ok 200 ->
  fst (upload (snd (upload st))) = fst (upload st) /\
  report (self (snd (upload (snd (upload st)))))
  = report (self (snd (upload st))).
Proof.
  intros Hp Hpost. pose proof Hp as (Ha & Hu & Hd & _).
  rewrite (upload_posted _ _ _ _ Hp). cbn [Z.eqb Pos.eqb fst snd].
  set (report_url := url +:+ "report/" +:+ uuid (self st)) in *.
  assert (posted (store_report (set_online doc report_url)
                               (log (post_call url doc) st))
                 url (set_online doc report_url) 200) as Hp2.
  { unfold posted, store_report, log. cbn [self config_p report].
    repeat split; assumption. }
  rewrite (upload_posted _ _ _ _ Hp2). cbn [Z.eqb Pos.eqb fst snd].
  unfold store_report, log. cbn [self config_p calls uuid report].
  fold report_url. split; [reflexivity|].
  f_equal. unfold set_online. cbn [r_activity r_method r_score r_contribution
    r_force_directed r_monte_carlo r_metadata].
  now rewrite insert_insert_eq.
Qed.

(** X16: a final slash on the configured server address makes no
    difference: with [url] and with [url/] in the preferences [upload]
    sends the same request, answers the same result and leaves the same
    object. *)
Theorem upload_trailing_slash (s : SerializedLCAReport)
    (p : gmap string pyval) (cs : list event) (url : string) (c : ascii) :
  last_char url = Some c -> c <> "/"%char ->
  let st1 := mkState s (<["report_server_url" := PStr url]> p) cs in
  let st2 := mkState s (<["report_server_url" := PStr (url +:+ "/")]> p) cs in
  fst (upload st1) = fst (upload st2) /\
  self (snd (upload st1)) = self (snd (upload st2)) /\
  calls (snd (upload st1)) = calls (snd (upload st2)).
Proof.
  intros Hc Hne st1 st2.
  assert (uploads_allowed (config_p st1) = uploads_allowed (config_p st2)) as Ha.
  { unfold uploads_allowed, dict_get, st1, st2. cbn [config_p].
    rewrite !lookup_insert_eq.
    rewrite !(lookup_insert_ne _ "report_server_url" "upload_reports")
      by discriminate.
    cbn [truthy]. now rewrite (last_char_nonempty _ _ Hc), app_slash_nonempty. }
  assert (server_url (config_p st1) = Ok (url +:+ "/")) as H1.
  { unfold server_url, st1. cbn [config_p]. rewrite lookup_insert_eq, Hc.
    apply Ascii.eqb_neq in Hne. now rewrite Hne. }
  assert (server_url (config_p st2) = Ok (url +:+ "/")) as H2.
  { unfold server_url, st2. cbn [config_p].
    rewrite lookup_insert_eq, last_char_app_slash. reflexivity. }
  unfold upload, bind, get_self, get_config, external, lift, raise, ret,
    set_report, getattr_report.
  rewrite Ha, H1, H2. cbn [fst snd].
  destruct (uploads_allowed (config_p st2)); cbn [negb fst snd];
    [|repeat split].
  change (self st1) with s. change (self st2) with s.
  destruct (report s) as [doc|]; cbn [fst snd]; [|repeat split].
  destruct (requests_post _ _) as [status|e]; [|repeat split].
  destruct (status =? 200); repeat split.
Qed.

(** X17: reports with different identifiers never share a file in a
    directory nor an address on a server. *)
Theorem identifiers_separate_reports (dirpath url u1 u2 : string) :
  u1 <> u2 ->
  os_path_join dirpath ("report." +:+ u1 +:+ ".json")
    <> os_path_join dirpath ("report." +:+ u2 +:+ ".json") /\
  url +:+ "report/" +:+ u1 <> url +:+ "report/" +:+ u2.
Proof.
  intros Hne. split.
  - unfold os_path_join. intros H. apply Hne.
    assert ("report." +:+ u1 +:+ ".json" = "report." +:+ u2 +:+ ".json") as Hn.
    { destruct (last_char dirpath) as [c|]; [|exact H].
      destruct (Ascii.eqb c "/").
      - now apply append_cancel_l in H.
      - apply append_cancel_l in H. now apply (append_cancel_l "/") in H. }
    apply (append_cancel_l "report.") in Hn. now apply append_cancel_r in Hn.
  - intros H. apply Hne. apply append_cancel_l in H.
    now apply (append_cancel_l "report/") in H.
Qed.

(** X18: the address requests are sent to is the configured address,
    with a slash appended unless it already ends in one; so it always
    ends in a slash. *)
Theorem server_url_ends_with_slash (p : gmap string pyval) (url : string) :
  server_url p = Ok url ->
  last_char url = Some "/"%char /\
  exists configured,
    p !! "report_server_url" = Some (PStr configured) /\
    (url = configured \/ url = configured +:+ "/").
Proof.
  unfold server_url.
  destruct (p !! "report_server_url") as [[| | |configured]|]; try discriminate.
  destruct (last_char configured) as [c|] eqn:Hc; [|discriminate].
  destruct (Ascii.eqb c "/") eqn:E; intros [= <-].
  - apply Ascii.eqb_eq in E as ->. split; [exact Hc|].
    exists configured. auto.
  - split; [apply last_char_app_slash|]. exists configured. auto.
Qed.

(** X19: for a non-degenerate sample set of the requested size whose
    offset [k] is at least one with [2 * k] below the sample count, and
    a density fit that accepts the trimmed samples, a summary is
    answered. *)
Theorem summary_is_answered (st : state) (raw : list Q) (k : Z)
    (kde : float -> float) :
  iterations (self st) = Z.of_nat (length raw) ->
  sampled st raw ->
  nondegenerate raw ->
  mc_offset (outliers (self st)) (np_sort raw) = Ok k ->
  1 <= k ->
  2 * k < Z.of_nat (length raw) ->
  gaussian_kde (filter_outliers k (np_sort raw)) = Ok kde ->
  exists s st', get_monte_carlo st = (Ok (Some s), st').
Proof.
  intros Hn Hraw Hnd Hoff Hk Hlt Hfit.
  apply (get_monte_carlo_returns st raw k kde); try assumption.
  intros E. apply (f_equal length) in E. apply (f_equal Z.of_nat) in E.
  unfold filter_outliers in E.
  rewrite py_slice_symmetric in E by (rewrite ?np_sort_length; lia).
  rewrite np_sort_length in E. simpl in E. lia.
Qed.

(** X20: with NaN as trimming fraction, a run whose samples pass the
    degeneracy test raises [ValueError] at the offset, [int(nan)], right
    after the sampler's call and before the density fit. *)
Theorem nan_fraction_raises (st : state) (raw : list Q) :
  iterations (self st) <> 0 ->
  sampled st raw ->
  nondegenerate raw ->
  is_nan (outliers (self st)) = true ->
  get_monte_carlo st =
  (Raise (ValueError "cannot convert float NaN to integer"),
   log (sampler_call st) st).
Proof.
  intros Hn Hraw Hnd Hnan.
  unfold get_monte_carlo, bind, get_self, external, lift, ret.
  apply Z.eqb_neq in Hn. rewrite Hn. unfold sampled in Hraw.
  unfold log at 1; cbn [self config_p calls]. rewrite Hraw.
  pose proof (nondegenerate_not_one _ (nondegenerate_sort _ Hnd)) as Hu.
  apply Nat.eqb_neq in Hu. rewrite Hu.
  unfold mc_offset. destruct (outliers (self st)); try discriminate.
  reflexivity.
Qed.

End Model.

(** * The model at work on concrete reports *)

Lemma ten_samples_nondegenerate : nondegenerate ten_samples.
Proof.
  exists 3%Q, 1%Q. unfold ten_samples. cbn [map].
  split; [apply list_elem_of_here|].
  split; [apply list_elem_of_further, list_elem_of_here|].
  intros H. discriminate H.
Qed.

Lemma close_samples_nondegenerate : nondegenerate close_samples.
Proof.
  exists (1 # 2)%Q, 1%Q. unfold close_samples.
  split; [apply list_elem_of_here|].
  split; [apply list_elem_of_further, list_elem_of_here|].
  intros H. discriminate H.
Qed.

(** Ten distinct samples, one fifth trimmed from each end. *)
Abbreviation ten_run :=
  (get_monte_carlo (sampler_of ten_samples) flat_kde naive_mean ten_state).

Lemma ten_run_summary :
  get_monte_carlo (sampler_of ten_samples) flat_kde naive_mean ten_state
  = (Ok (Some (summary_of ten_run)), snd ten_run).
Proof. vm_compute. reflexivity. Qed.

(** Five samples whose middle three coincide, one trimmed from each
    end: what is left has a single value. *)
Abbreviation flat_run :=
  (get_monte_carlo (sampler_of flat_middle) flat_kde naive_mean flat_state).

Lemma flat_run_summary :
  get_monte_carlo (sampler_of flat_middle) flat_kde naive_mean flat_state
  = (Ok (Some (summary_of flat_run)), snd flat_run).
Proof. vm_compute. reflexivity. Qed.

(** Five samples whose middle three are the doubles 1, 1 + 2^-52 and
    1 + 2^-51, one trimmed from each end. *)
Abbreviation close_run :=
  (get_monte_carlo (sampler_of close_samples) flat_kde naive_mean flat_state).

Lemma close_run_summary :
  get_monte_carlo (sampler_of close_samples) flat_kde naive_mean flat_state
  = (Ok (Some (summary_of close_run)), snd close_run).
Proof. vm_compute. reflexivity. Qed.



Lemma C2_interval_untrimmed_witness :
  interval (statistics (summary_of ten_run)) = [1%Q; 10%Q] /\
  forall out st2' s2,
    get_monte_carlo (sampler_of ten_samples) flat_kde naive_mean
                    (with_outliers out ten_state)
      = (Ok (Some s2), st2') ->
    interval (statistics s2) = interval (statistics (summary_of ten_run)).
Proof.
  destruct (C2_interval_untrimmed (sampler_of ten_samples) flat_kde naive_mean
              ten_state (snd ten_run) (summary_of ten_run) ten_run_summary)
    as [_ H].
  split; [vm_compute; reflexivity | exact H].
Defined.

Lemma C3_num_bins_constant_witness :
  0 <= default_iterations /\ num_bins default_iterations = Ok 100.
Proof.
  split; [discriminate|].
  apply (proj1 (C3_num_bins_constant default_iterations)). discriminate.
Defined.

Lemma C4_zero_iterations_witness :
  get_monte_carlo failing_sampler flat_kde naive_mean
                  (fresh_state 0 default_outliers ∅)
  = (Ok None, fresh_state 0 default_outliers ∅).
Proof.
  apply (C4_zero_iterations failing_sampler flat_kde naive_mean
           (fresh_state 0 default_outliers ∅)).
  reflexivity.
Defined.

Lemma C5_identical_samples_witness :
  fst (get_monte_carlo (sampler_of [3%Q; 3%Q; 3%Q]) flat_kde naive_mean
         (fresh_state 3 default_outliers ∅)) = Ok None.
Proof.
  apply (C5_identical_samples (sampler_of [3%Q; 3%Q; 3%Q]) flat_kde naive_mean
           (fresh_state 3 default_outliers ∅) [3%Q; 3%Q; 3%Q]).
  - reflexivity.
  - split; [discriminate|]. intros x y Hx Hy.
    assert (forall z, z ∈ [3%Q; 3%Q; 3%Q] -> z = 3%Q) as H.
    { intros z Hz. repeat (apply elem_of_cons in Hz as [Hz|Hz]; [exact Hz|]).
      inversion Hz. }
    rewrite (H x Hx), (H y Hy). reflexivity.
Defined.



(** [np.linspace] does not ascend on every range: over 250 steps of the
    least subnormal the step rounds to one such step, and the last point
    but one, 498 of them, lies beyond the end. *)
Lemma np_linspace_overshoot :
  let stop := double_of_Q (250 # 2 ^ 1074) in
  let xs := np_linspace float_zero stop 500 in
  xs !! 498%nat = Some (double_of_Q (498 # 2 ^ 1074)) /\
  xs !! 499%nat = Some stop /\
  float_lt stop (double_of_Q (498 # 2 ^ 1074)).
Proof. vm_compute. repeat split. Qed.



Lemma C8_uuid_fixed_at_construction_witness :
  identified office_uuid
    (run_calls failing_sampler flat_kde naive_mean plain_lca plain_graph home_dir
               quiet_dump plain_dumps (post_answering 200)
               office_calls office_start) /\
  dumps_of (calls
    (run_calls failing_sampler flat_kde naive_mean plain_lca plain_graph home_dir
               quiet_dump plain_dumps (post_answering 200)
               office_calls office_start))
  = [(sample_report office_uuid,
      "/home/user/brightway2/reports/report.0123456789abcdef0123456789abcdef.json");
     (set_online (sample_report office_uuid)
        "http://reports.brightwaylca.org/report/0123456789abcdef0123456789abcdef",
      "/home/user/brightway2/reports/report.0123456789abcdef0123456789abcdef.json")].
Proof.
  split.
  - exact (proj1 (proj2
      (C8_uuid_fixed_at_construction failing_sampler flat_kde naive_mean plain_lca
         plain_graph home_dir quiet_dump plain_dumps (post_answering 200)
         [] [] 0 default_cpus default_outliers office_uuid upload_config
         office_calls))).
  - vm_compute. reflexivity.
Defined.

Lemma upload_config_posted (status : Z) :
  posted plain_dumps (post_answering status)
         (calculated_state office_uuid upload_config)
         "http://reports.brightwaylca.org/" (sample_report office_uuid) status.
Proof. repeat split; vm_compute; reflexivity. Qed.

Lemma C9_upload_outcomes_witness :
  config_p (calculated_state office_uuid ∅) !! "upload_reports" = None /\
  upload plain_dumps (post_answering 200) (calculated_state office_uuid ∅)
    = (Raise (ValueError "Report uploading not allowed"),
       calculated_state office_uuid ∅) /\
  fst (upload plain_dumps (post_answering 503)
         (calculated_state office_uuid upload_config)) = Ok (PBool false) /\
  fst (upload plain_dumps (post_answering 200)
         (calculated_state office_uuid upload_config))
    = Ok (PStr ("http://reports.brightwaylca.org/" +:+ "report/" +:+ office_uuid)).
Proof.
  split; [reflexivity|]. split; [|split].
  - apply (proj1 (C9_upload_outcomes plain_dumps (post_answering 200)
                    (calculated_state office_uuid ∅))).
    left. reflexivity.
  - apply (proj1 (proj2 (C9_upload_outcomes plain_dumps (post_answering 503)
                           (calculated_state office_uuid upload_config)))
             _ _ 503 (upload_config_posted 503)).
    discriminate.
  - apply (proj2 (proj2 (C9_upload_outcomes plain_dumps (post_answering 200)
                           (calculated_state office_uuid upload_config)))
             _ _ (upload_config_posted 200)).
Defined.

Lemma C10_upload_mutation_witness :
  report (self (snd (upload plain_dumps (post_answering 200)
                       (calculated_state office_uuid upload_config))))
    = Some (set_online (sample_report office_uuid)
              ("http://reports.brightwaylca.org/" +:+ "report/" +:+ office_uuid)) /\
  self (snd (upload plain_dumps (post_answering 503)
               (calculated_state office_uuid upload_config)))
    = self (calculated_state office_uuid upload_config).
Proof.
  split.
  - apply (proj1 (C10_upload_mutation plain_dumps (post_answering 200)
                    (calculated_state office_uuid upload_config))
             _ _ (upload_config_posted 200)).
  - apply (proj1 (proj2 (C10_upload_mutation plain_dumps (post_answering 503)
                           (calculated_state office_uuid upload_config)))
             _ _ 503 (upload_config_posted 503)).
    discriminate.
Defined.

(** ** Further properties on concrete reports *)

Lemma none_only_without_uncertainty_witness :
  iterations (self (fresh_state 3 default_outliers ∅)) = 0 \/
  exists raw,
    sampled (sampler_of [3%Q; 3%Q; 3%Q]) (fresh_state 3 default_outliers ∅) raw /\
    all_identical raw.
Proof.
  apply (none_only_without_uncertainty (sampler_of [3%Q; 3%Q; 3%Q]) flat_kde
           naive_mean (fresh_state 3 default_outliers ∅)
           (log (sampler_call (fresh_state 3 default_outliers ∅))
                (fresh_state 3 default_outliers ∅))).
  vm_compute. reflexivity.
Defined.

Lemma no_samples_index_error_witness :
  get_monte_carlo (sampler_of []) flat_kde naive_mean
                  (fresh_state 10 default_outliers ∅)
  = (Raise IndexError,
     log (sampler_call (fresh_state 10 default_outliers ∅))
         (fresh_state 10 default_outliers ∅)).
Proof.
  apply (no_samples_index_error (sampler_of []) flat_kde naive_mean
           (fresh_state 10 default_outliers ∅)).
  - discriminate.
  - reflexivity.
Defined.

Lemma nothing_left_raises_witness :
  exists e,
    fst (get_monte_carlo (sampler_of ten_samples) flat_kde naive_mean
           (fresh_state 10 default_outliers ∅)) = Raise e.
Proof.
  apply (nothing_left_raises (sampler_of ten_samples) flat_kde naive_mean
           (fresh_state 10 default_outliers ∅) ten_samples 0).
  - discriminate.
  - reflexivity.
  - exact ten_samples_nondegenerate.
  - vm_compute. reflexivity.
  - left. reflexivity.
Defined.

Lemma trimming_removes_extremes_witness :
  exists low high,
    np_sort ten_samples = low ++ filter_outliers 2 (np_sort ten_samples) ++ high /\
    length low = Z.to_nat 2 /\
    length high = Z.to_nat 2 /\
    (forall x y, x ∈ low ->
       y ∈ filter_outliers 2 (np_sort ten_samples) -> (x <= y)%Q) /\
    (forall y z, y ∈ filter_outliers 2 (np_sort ten_samples) ->
       z ∈ high -> (y <= z)%Q).
Proof.
  apply (trimming_removes_extremes (double_of_Q (2 # 10)) ten_samples 2).
  - vm_compute. reflexivity.
  - lia.
  - vm_compute. discriminate.
Defined.

Lemma interval_is_ordered_witness :
  exists raw lower upper,
    sampled (sampler_of ten_samples) ten_state raw /\
    interval (statistics (summary_of ten_run)) = [lower; upper] /\
    lower ∈ raw /\ upper ∈ raw /\ (lower <= upper)%Q.
Proof.
  exact (interval_is_ordered (sampler_of ten_samples) flat_kde naive_mean
           ten_state (snd ten_run) (summary_of ten_run) ten_run_summary).
Defined.


Lemma summary_is_answered_witness :
  exists s st',
    get_monte_carlo (sampler_of ten_samples) flat_kde naive_mean ten_state
    = (Ok (Some s), st').
Proof.
  apply (summary_is_answered (sampler_of ten_samples) flat_kde naive_mean
           ten_state ten_samples 2 (fun _ => float_of_Z 1)).
  - reflexivity.
  - reflexivity.
  - exact ten_samples_nondegenerate.
  - vm_compute. reflexivity.
  - lia.
  - vm_compute. reflexivity.
  - vm_compute. reflexivity.
Defined.

Lemma calculate_failure_keeps_object_witness :
  self (snd (calculate failing_sampler flat_kde naive_mean failing_lca plain_graph
               (calculated_state office_uuid upload_config)))
  = self (calculated_state office_uuid upload_config) /\
  config_p (snd (calculate failing_sampler flat_kde naive_mean failing_lca plain_graph
                   (calculated_state office_uuid upload_config)))
  = config_p (calculated_state office_uuid upload_config).
Proof.
  apply (calculate_failure_keeps_object failing_sampler flat_kde naive_mean failing_lca
           plain_graph (calculated_state office_uuid upload_config)
           (ExternalError "LCA")).
  reflexivity.
Defined.

Lemma calculate_stops_at_first_failure_witness :
  calculate failing_sampler flat_kde naive_mean failing_lca plain_graph office_start
  = (Raise (ExternalError "LCA"),
     log (CallLCA (activity (self office_start)) (method (self office_start)))
         office_start).
Proof.
  apply (proj1 (calculate_stops_at_first_failure failing_sampler flat_kde naive_mean
                  failing_lca plain_graph office_start (ExternalError "LCA"))).
  reflexivity.
Defined.

Lemma calculate_without_monte_carlo_witness :
  fst (calculate failing_sampler flat_kde naive_mean plain_lca plain_graph office_start)
  = Ok tt /\
  calls (snd (calculate failing_sampler flat_kde naive_mean plain_lca plain_graph
                office_start))
  = calls office_start
    ++ [CallLCA (activity (self office_start)) (method (self office_start));
        CallGraphTraversal (activity (self office_start))
                           (method (self office_start))] /\
  exists doc,
    report (self (snd (calculate failing_sampler flat_kde naive_mean plain_lca plain_graph
                         office_start))) = Some doc /\
    r_monte_carlo doc = None /\ r_force_directed doc = JNull.
Proof.
  apply (calculate_without_monte_carlo failing_sampler flat_kde naive_mean plain_lca
           plain_graph office_start (mkSections JNull JNull (JNum 1) JNull) JNull).
  - reflexivity.
  - reflexivity.
  - reflexivity.
Defined.

(** A document that is already online, calculated again. *)
Lemma calculate_resets_metadata_witness :
  exists doc,
    report (self (snd (calculate failing_sampler flat_kde naive_mean plain_lca plain_graph
      (store_report
         (set_online (sample_report office_uuid) "http://localhost/report/x")
         office_start)))) = Some doc /\
    dom (r_metadata doc) = ({["type"; "version"; "uuid"]} : gset string) /\
    r_metadata doc !! "uuid" = Some (PStr office_uuid) /\
    r_metadata doc !! "online" = None.
Proof.
  apply (calculate_resets_metadata failing_sampler flat_kde naive_mean plain_lca plain_graph
           (store_report
              (set_online (sample_report office_uuid) "http://localhost/report/x")
              office_start)).
  vm_compute. reflexivity.
Defined.

Lemma nothing_to_write_or_upload_witness :
  (exists e,
     fst (write home_dir quiet_dump office_start) = Raise e /\
     self (snd (write home_dir quiet_dump office_start)) = self office_start /\
     dumps_of (calls (snd (write home_dir quiet_dump office_start)))
     = dumps_of (calls office_start)) /\
  (exists e,
     upload plain_dumps (post_answering 200) office_start = (Raise e, office_start)).
Proof.
  apply (nothing_to_write_or_upload home_dir quiet_dump plain_dumps
           (post_answering 200) office_start).
  reflexivity.
Defined.

Lemma upload_twice_witness :
  fst (upload plain_dumps (post_answering 200)
         (snd (upload plain_dumps (post_answering 200)
                 (calculated_state office_uuid upload_config))))
  = fst (upload plain_dumps (post_answering 200)
           (calculated_state office_uuid upload_config)) /\
  report (self (snd (upload plain_dumps (post_answering 200)
                       (snd (upload plain_dumps (post_answering 200)
                               (calculated_state office_uuid upload_config))))))
  = report (self (snd (upload plain_dumps (post_answering 200)
                         (calculated_state office_uuid upload_config)))).
Proof.
  apply (upload_twice plain_dumps (post_answering 200)
           (calculated_state office_uuid upload_config)
           "http://reports.brightwaylca.org/" (sample_report office_uuid)).
  - exact (upload_config_posted 200).
  - reflexivity.
Defined.

Lemma upload_trailing_slash_witness :
  let s := self (calculated_state office_uuid ∅) in
  let p : gmap string pyval := <["upload_reports" := PBool true]> ∅ in
  let st1 := mkState s (<["report_server_url" := PStr "http://localhost:8000"]> p) [] in
  let st2 := mkState s (<["report_server_url" := PStr ("http://localhost:8000" +:+ "/")]> p) [] in
  fst (upload plain_dumps (post_answering 200) st1)
  = fst (upload plain_dumps (post_answering 200) st2) /\
  self (snd (upload plain_dumps (post_answering 200) st1))
  = self (snd (upload plain_dumps (post_answering 200) st2)) /\
  calls (snd (upload plain_dumps (post_answering 200) st1))
  = calls (snd (upload plain_dumps (post_answering 200) st2)).
Proof.
  apply (upload_trailing_slash plain_dumps (post_answering 200)
           (self (calculated_state office_uuid ∅))
           (<["upload_reports" := PBool true]> ∅) []
           "http://localhost:8000" "0"%char).
  - reflexivity.
  - discriminate.
Defined.

Lemma identifiers_separate_reports_witness :
  os_path_join "/home/user/brightway2/reports" ("report." +:+ "aa" +:+ ".json")
  <> os_path_join "/home/user/brightway2/reports" ("report." +:+ "ab" +:+ ".json") /\
  "http://localhost/" +:+ "report/" +:+ "aa"
  <> "http://localhost/" +:+ "report/" +:+ "ab".
Proof.
  apply (identifiers_separate_reports "/home/user/brightway2/reports"
           "http://localhost/" "aa" "ab").
  discriminate.
Defined.

Lemma server_url_ends_with_slash_witness :
  last_char "http://reports.brightwaylca.org/" = Some "/"%char /\
  exists configured,
    upload_config !! "report_server_url" = Some (PStr configured) /\
    ("http://reports.brightwaylca.org/" = configured \/
     "http://reports.brightwaylca.org/" = configured +:+ "/").
Proof.
  apply (server_url_ends_with_slash upload_config "http://reports.brightwaylca.org/").
  vm_compute. reflexivity.
Defined.

Lemma nan_fraction_raises_witness :
  get_monte_carlo (sampler_of ten_samples) flat_kde naive_mean
                  (fresh_state 10 S754_nan ∅)
  = (Raise (ValueError "cannot convert float NaN to integer"),
     log (sampler_call (fresh_state 10 S754_nan ∅)) (fresh_state 10 S754_nan ∅)).
Proof.
  apply (nan_fraction_raises (sampler_of ten_samples) flat_kde naive_mean
           (fresh_state 10 S754_nan ∅) ten_samples).
  - discriminate.
  - reflexivity.
  - exact ten_samples_nondegenerate.
  - reflexivity.
Defined.
